(** * Startup of the main process: single-instance IPC set-up, the process
      report printed by [--ps], and the quit path

    Shallow embedding of [src/vs/code/electron-main/main.ts].

    - [JS]: the pieces of the JavaScript runtime the file relies on
      (number formatting, string templates).
    - [Formatter]: [formatProcessList] and [formatProcessItem].
    - [Coordinator]: [setupIPC] with its inner [allowSetForegroundWindow]
      and [setup], run against a scripted outside world with a virtual clock.
    - [Quit]: [quit]. *)

From Stdlib Require Import ZArith String Ascii List Lia Bool DecimalString.
From Stdlib Require Import Floats.PrimFloat Floats.SpecFloat Floats.FloatOps.
From stdpp Require Import gmap strings list.
Import ListNotations.

Local Open Scope Z_scope.

(* ===================================================================== *)
(** ** The JavaScript runtime, as far as the file uses it                 *)
(* ===================================================================== *)

Module JS.

Definition TAB : string := String (ascii_of_nat 9) EmptyString.
Definition LF : string := String (ascii_of_nat 10) EmptyString.

(** What a template literal prints for a value that may be [undefined]. *)
Definition template (v : option string) : string :=
  match v with
  | Some s => s
  | None => "undefined"
  end.

Definition decimal (n : N) : string := NilZero.string_of_uint (N.to_uint n).

Definition sign_prefix (neg : bool) : string := if neg then "-" else "".

(** A finite non-zero double is [(-1)^s * m * 2^e]; [Prim2SF] exposes
    [s], [m] and [e]. The integer nearest to [m * 2^e], the larger one on
    a tie (step "let n be an integer for which n - x is as close to zero
    as possible; if there are two such n, pick the larger n" of
    [Number.prototype.toFixed]). *)
Definition round_half_up (m : positive) (e : Z) : Z :=
  if 0 <=? e then Z.pos m * 2 ^ e
  else (Z.pos m + 2 ^ (- e - 1)) / 2 ^ (- e).

(** [10^21 <= m * 2^e]. A mantissa is below [2^53], so this needs [0 <= e]. *)
Definition at_least_1e21 (m : positive) (e : Z) : bool :=
  (0 <=? e) && (10 ^ 21 <=? Z.pos m * 2 ^ e).

(** [m * 2^e] when it is an integer of magnitude at most [2^53]. *)
Definition safe_integer (m : positive) (e : Z) : option N :=
  if 0 <=? e then
    if Z.pos m * 2 ^ e <=? 2 ^ 53 then Some (Z.to_N (Z.pos m * 2 ^ e)) else None
  else
    if Z.pos m mod 2 ^ (- e) =? 0 then Some (Z.to_N (Z.pos m / 2 ^ (- e))) else None.

Definition is_digit (c : ascii) : bool :=
  let n := nat_of_ascii c in (48 <=? n)%nat && (n <=? 57)%nat.

Fixpoint parse_digits (acc : N) (s : string) : option N :=
  match s with
  | EmptyString => Some acc
  | String c rest =>
      if is_digit c
      then parse_digits (10 * acc + N.of_nat (nat_of_ascii c - 48)) rest
      else None
  end.

(** An optional minus sign followed by one or more decimal digits. *)
Definition parse_integer_literal (s : string) : option (bool * N) :=
  match s with
  | EmptyString => None
  | String c rest =>
      if Ascii.eqb c "-"%char then
        match rest with
        | EmptyString => None
        | _ => option_map (fun n => (true, n)) (parse_digits 0 rest)
        end
      else option_map (fun n => (false, n)) (parse_digits 0 s)
  end.

Section Runtime.

(** Digit generation of [Number::toString] for a finite double that is
    not an integer of magnitude at most [2^53] (shortest digits that
    read back as the same double, exponent notation from [1e21]). *)
Variable shortest_repr : float -> string.

(** [StringToNumber] on every literal that is not [NaN], a signed
    [Infinity] or a signed run of decimal digits. *)
Variable parse_numeric : string -> float.

(** ['' + n] *)
Definition number_to_string (x : float) : string :=
  match Prim2SF x with
  | S754_nan => "NaN"
  | S754_infinity s => sign_prefix s +:+ "Infinity"
  | S754_zero _ => "0"
  | S754_finite s m e =>
      match safe_integer m e with
      | Some n => sign_prefix s +:+ decimal n
      | None => shortest_repr x
      end
  end.

(** [x.toFixed(0)] *)
Definition toFixed0 (x : float) : string :=
  match Prim2SF x with
  | S754_nan => "NaN"
  | S754_infinity s => sign_prefix s +:+ "Infinity"
  | S754_zero _ => "0"
  | S754_finite s m e =>
      if at_least_1e21 m e
      then sign_prefix s +:+ number_to_string (abs x)
      else sign_prefix s +:+ decimal (Z.to_N (round_half_up m e))
  end.

(** [Number(s)]; an integer literal is rounded to the nearest double,
    ties to even, and ["-0"] is the negative zero. *)
Definition Number (s : string) : float :=
  if String.eqb s "NaN" then nan
  else if String.eqb s "Infinity" then infinity
  else if String.eqb s "-Infinity" then neg_infinity
  else match parse_integer_literal s with
       | Some (neg, n) =>
           SF2Prim (binary_normalize prec emax
                      (if neg then - Z.of_N n else Z.of_N n) 0 neg)
       | None => parse_numeric s
       end.

End Runtime.

End JS.

(* ===================================================================== *)
(** ** [vs/base/common/strings]: [repeat] and [pad]                       *)
(* ===================================================================== *)

Module Strings.

(** Modelled from the spec: [repeat] of [vs/base/common/strings] is not
    part of the sources at hand. "indentation = two spaces x depth":
    [repeat s count] is [count] copies of [s]. *)
Fixpoint repeat (s : string) (count : nat) : string :=
  match count with
  | O => ""
  | S k => s +:+ repeat s k
  end.

(** Modelled from the spec: [pad] of [vs/base/common/strings] is not part
    of the sources at hand. "right-justified numeric columns": the number
    is printed and filled on the left with [char] up to [l] characters. *)
Definition pad (shortest_repr : float -> string)
    (n : float) (l : nat) (char : string) : string :=
  let str := JS.number_to_string shortest_repr n in
  repeat char (l - String.length str) +:+ str.

End Strings.

(* ===================================================================== *)
(** ** The process report                                                 *)
(* ===================================================================== *)

Module Formatter.

(** [ProcessItem] of [vs/base/node/ps]; [children] is optional there. *)
#[local] Set Warnings "-register-all".
Inductive ProcessItem : Type :=
  mkProcessItem {
    item_name : string;
    item_pid : Z;
    item_load : float;
    item_mem : float;
    item_children : option (list ProcessItem)
  }.

Record IWindowInfo : Type :=
  mkWindowInfo { window_pid : Z; window_title : string }.

Record IMainProcessInfo : Type :=
  mkMainProcessInfo { mainPID : Z; windows : list IWindowInfo }.

(** What the report reads from the host: [product], [os] and the number
    formatting of the runtime. [header_block] stands for the lines pushed
    before the table (version, OS, CPUs, memory, load, VM, screen reader). *)
Record Host : Type :=
  mkHost {
    applicationName : string;
    os_totalmem : float;
    header_block : list string;
    shortest_repr : float -> string;
    parse_numeric : string -> float
  }.

Definition MB : float := 1048576%float.

Definition children_list (item : ProcessItem) : list ProcessItem :=
  match item_children item with
  | Some cs => cs
  | None => []
  end.

Section WithHost.

Variable host : Host.

Definition toFixed0 (x : float) : string :=
  JS.toFixed0 (shortest_repr host) x.
Definition Number (s : string) : float :=
  JS.Number (parse_numeric host) s.
Definition pad (n : float) (l : nat) (char : string) : string :=
  Strings.pad (shortest_repr host) n l char.

Fixpoint formatProcessItem (mapPidToWindowTitle : gmap Z string)
    (output : list string) (item : ProcessItem) (indent : nat)
    {struct item} : list string :=
  match item with
  | mkProcessItem iname ipid iload imem ichildren =>
      let isRoot := Nat.eqb indent 0%nat in
      let name :=
        if isRoot then applicationName host +:+ " main"
        else
          let name := Strings.repeat "  " indent +:+ " " +:+ iname in
          if String.eqb iname "renderer"
          then name +:+ " (" +:+ JS.template (mapPidToWindowTitle !! ipid) +:+ ")"
          else name in
      let output :=
        output ++
          [pad (Number (toFixed0 iload)) 5 " " +:+ JS.TAB +:+
           pad (Number (toFixed0
                          ((os_totalmem host * (imem / 100)) / MB)%float)) 6 " "
           +:+ JS.TAB +:+ name] in
      match ichildren with
      | Some cs =>
          fold_left
            (fun out child =>
               formatProcessItem mapPidToWindowTitle out child (indent + 1)%nat)
            cs output
      | None => output
      end
  end.

Definition build_title_map (ws : list IWindowInfo) : gmap Z string :=
  fold_left (fun m w => <[window_pid w := window_title w]> m) ws ∅.

Definition formatProcessList (info : IMainProcessInfo)
    (rootProcess : ProcessItem) : string :=
  let mapPidToWindowTitle := build_title_map (windows info) in
  let output :=
    header_block host ++
      [""; "CPU %" +:+ JS.TAB +:+ "Mem MB" +:+ JS.TAB +:+ "Process"] in
  let output := formatProcessItem mapPidToWindowTitle output rootProcess 0%nat in
  String.concat JS.LF output.

(** *** The vocabulary of the statements *)

(** The items of a tree with their depths, root first, children in
    their given order. *)
Fixpoint preorder (depth : nat) (item : ProcessItem) {struct item}
  : list (nat * ProcessItem) :=
  match item with
  | mkProcessItem _ _ _ _ ichildren =>
      (depth, item) ::
        match ichildren with
        | Some cs => flat_map (preorder (S depth)) cs
        | None => []
        end
  end.

Definition cpu_column (item : ProcessItem) : string :=
  pad (Number (toFixed0 (item_load item))) 5 " ".

Definition mem_column (item : ProcessItem) : string :=
  pad (Number (toFixed0
                 ((os_totalmem host * (item_mem item / 100)) / MB)%float)) 6 " ".

Definition indentation (depth : nat) : string := Strings.repeat "  " depth.

(** The annotation of a row: what follows the indented name. *)
Definition annotation (m : gmap Z string) (depth : nat) (item : ProcessItem)
  : string :=
  if Nat.eqb depth 0%nat then ""
  else if String.eqb (item_name item) "renderer"
       then " (" +:+ JS.template (m !! item_pid item) +:+ ")"
       else "".

Definition name_column (m : gmap Z string) (depth : nat) (item : ProcessItem)
  : string :=
  match depth with
  | O => applicationName host +:+ " main"
  | S _ => indentation depth +:+ " " +:+ item_name item +:+ annotation m depth item
  end.

Definition table_row (m : gmap Z string) (depth : nat) (item : ProcessItem)
  : string :=
  cpu_column item +:+ JS.TAB +:+ mem_column item +:+ JS.TAB +:+ name_column m depth item.

(** The rows of a subtree whose root is at [depth]. *)
Definition rows_of (m : gmap Z string) (depth : nat) (item : ProcessItem)
  : list string :=
  map (fun di => table_row m di.1 di.2) (preorder depth item).

End WithHost.

(** The number of items of a tree. *)
Fixpoint item_count (item : ProcessItem) : nat :=
  match item with
  | mkProcessItem _ _ _ _ ichildren =>
      S (match ichildren with
         | Some cs => list_sum (map item_count cs)
         | None => 0
         end)
  end.

(** The title [info.windows] gives for a process id: that of the last
    window with this id, if there is one. *)
Fixpoint find_title (ws : list IWindowInfo) (pid : Z) : option string :=
  match ws with
  | [] => None
  | w :: ws' =>
      match find_title ws' pid with
      | Some t => Some t
      | None => if window_pid w =? pid then Some (window_title w) else None
      end
  end.

(** [n] is an integer nearest to [num / den], for [0 < den]:
    [|n - num/den| <= 1/2]. *)
Definition nearest_integer (n num den : Z) : Prop :=
  2 * Z.abs (n * den - num) <= den.

End Formatter.

(* ===================================================================== *)
(** ** Errors and promises                                                *)
(* ===================================================================== *)

Module Errors.

(** An [Error] object as the file reads it: [code] is set by the node
    layer on failed system calls, [isExpected] by [ExpectedError]. *)
Record JsError : Type :=
  mkJsError {
    err_name : string;
    err_message : string;
    err_stack : option string;
    err_code : option string;
    isExpected : bool
  }.

(** [err.code === c] / [err.code !== c] *)
Definition code_is (err : JsError) (c : string) : bool :=
  match err_code err with
  | Some c' => String.eqb c' c
  | None => false
  end.

(** Truthiness of a value that is a string or [undefined]. *)
Definition truthy (v : option string) : bool :=
  match v with
  | Some s => negb (String.eqb s "")
  | None => false
  end.

(** A settled promise. [TPromise.wrapError(e)] is [Rejected e]. *)
Inductive TPromise (A : Type) : Type :=
| Resolved (a : A)
| Rejected (e : JsError).
Arguments Resolved {A} a.
Arguments Rejected {A} e.

Section Construction.
(** The stack the runtime records when an error is constructed. *)
Variable capture_stack : string -> option string.

(** [new Error(msg)] *)
Definition new_Error (msg : string) : JsError :=
  {| err_name := "Error"; err_message := msg;
     err_stack := capture_stack msg; err_code := None;
     isExpected := false |}.

(** [class ExpectedError extends Error { isExpected = true }] *)
Definition new_ExpectedError (msg : string) : JsError :=
  {| err_name := "Error"; err_message := msg;
     err_stack := capture_stack msg; err_code := None;
     isExpected := true |}.
End Construction.

End Errors.

(* ===================================================================== *)
(** ** [setupIPC]                                                         *)
(* ===================================================================== *)

Module Coordinator.
Import Errors Formatter.

Inductive LogArg : Type :=
| LStr (s : string)
| LNum (z : Z)
| LErr (e : JsError).

(** Everything the coordinator does to the outside, in order. *)
Inductive Event : Type :=
| EnterSetup (retry : bool)
| Serve (handle : string)
| Connect (handle : string)
| Unlink (handle : string)
| DockShow
| DockHide
| ConsoleLog (text : string)
| LogInfo (args : list LogArg)
| LogError (args : list LogArg)
| ClientDispose
| SetTimeout (handle : nat) (ms : N)
| ClearTimeout (handle : nat)
| TimerFired (handle : nat)
| ShowStartupWarningDialog (message detail : string)
| GetMainProcessId
| ForegroundGrant (processId : Z)
| GetMainProcessInfo
| ListProcesses (rootPid : Z)
| Start (args : list string) (env : list (string * string)).

Record Server : Type := mkServer { server_handle : string }.

(** [environmentService], [platform], [product], [process] and [nls]. *)
Record Environment : Type :=
  mkEnvironment {
    isWindows : bool;
    isMacintosh : bool;
    mainIPCHandle : string;
    args_ps : bool;
    wait : bool;
    extensionTestsPath : option string;
    debugExtensionHost_break : bool;
    args : list string;
    process_env : list (string * string);
    nameShort : string;
    localize : string -> string -> list string -> string;
    capture_stack : string -> option string;
    host : Host
  }.

(** How loading and calling [windows-foreground-love] ends. *)
Inductive GrantResult : Type :=
| GrantOk
| RequireThrows (e : JsError)
| GrantThrows (e : JsError).

Inductive Operation : Type :=
| OpServe
| OpConnect
| OpGetMainProcessId
| OpStart
| OpGetMainProcessInfo
| OpListProcesses.

(** The outside world, scripted: how the n-th bind, connect and unlink
    end ([None]: success), what the peer answers, and how long each
    asynchronous operation takes on the virtual clock. *)
Record World : Type :=
  mkWorld {
    serve_outcome : nat -> option JsError;
    connect_outcome : nat -> option JsError;
    unlink_outcome : nat -> option JsError;
    getMainProcessId_outcome : TPromise Z;
    foreground_outcome : GrantResult;
    start_outcome : option JsError;
    getMainProcessInfo_outcome : TPromise IMainProcessInfo;
    listProcesses_outcome : Z -> TPromise ProcessItem;
    latency : Operation -> N
  }.

(** A pending timer: its handle, the time it is due, and what its
    callback does. *)
Record Timer : Type :=
  mkTimer { timer_handle : nat; timer_due : N; timer_callback : list Event }.

Record State : Type :=
  mkState {
    now : N;
    timers : list Timer;
    next_timer : nat;
    serve_calls : nat;
    connect_calls : nat;
    unlink_calls : nat;
    trace : list Event
  }.

(** Timer handles are truthy: they start at 1. *)
Definition initial : State :=
  {| now := 0%N; timers := []; next_timer := 1%nat; serve_calls := 0%nat;
     connect_calls := 0%nat; unlink_calls := 0%nat; trace := [] |}.

(** State passing; [None] is a run cut short by the recursion budget. *)
Definition M (A : Type) : Type := State -> option (A * State).

Definition ret {A : Type} (a : A) : M A := fun s => Some (a, s).

Definition bind {A B : Type} (m : M A) (f : A -> M B) : M B :=
  fun s => match m s with
           | Some (a, s') => f a s'
           | None => None
           end.

Definition out_of_budget {A : Type} : M A := fun _ => None.

Notation "x <- m ;; k" := (bind m (fun x => k))
  (at level 100, m at next level, right associativity).
Notation "m ;;; k" := (bind m (fun _ => k))
  (at level 100, right associativity).

Definition emit (e : Event) : M unit :=
  fun s => Some (tt, {| now := now s; timers := timers s;
                        next_timer := next_timer s;
                        serve_calls := serve_calls s;
                        connect_calls := connect_calls s;
                        unlink_calls := unlink_calls s;
                        trace := trace s ++ [e] |}).

Definition when (b : bool) (m : M unit) : M unit := if b then m else ret tt.

Definition is_due (t : N) (tm : Timer) : bool := (timer_due tm <=? t)%N.

Definition fire (tm : Timer) : list Event :=
  TimerFired (timer_handle tm) :: timer_callback tm.

(** The clock moves on by [d]: every timer due by then fires, once. *)
Definition advance (d : N) (s : State) : State :=
  let t := (now s + d)%N in
  {| now := t;
     timers := List.filter (fun tm => negb (is_due t tm)) (timers s);
     next_timer := next_timer s;
     serve_calls := serve_calls s;
     connect_calls := connect_calls s;
     unlink_calls := unlink_calls s;
     trace := trace s ++ flat_map fire (List.filter (is_due t) (timers s)) |}.

(** Waiting for an asynchronous operation to settle. *)
Definition await (d : N) : M unit := fun s => Some (tt, advance d s).

(** [setTimeout(callback, ms)] *)
Definition setTimeout (callback : list Event) (ms : N) : M nat :=
  fun s =>
    let h := next_timer s in
    Some (h, {| now := now s;
                timers := timers s ++ [mkTimer h (now s + ms)%N callback];
                next_timer := S h;
                serve_calls := serve_calls s;
                connect_calls := connect_calls s;
                unlink_calls := unlink_calls s;
                trace := trace s ++ [SetTimeout h ms] |}).

(** [clearTimeout(handle)] *)
Definition clearTimeout (h : nat) : M unit :=
  fun s =>
    Some (tt, {| now := now s;
                 timers := List.filter (fun tm => negb (timer_handle tm =? h)%nat)
                             (timers s);
                 next_timer := next_timer s;
                 serve_calls := serve_calls s;
                 connect_calls := connect_calls s;
                 unlink_calls := unlink_calls s;
                 trace := trace s ++ [ClearTimeout h] |}).

Definition next_serve : M nat :=
  fun s => Some (serve_calls s,
                 {| now := now s; timers := timers s;
                    next_timer := next_timer s;
                    serve_calls := S (serve_calls s);
                    connect_calls := connect_calls s;
                    unlink_calls := unlink_calls s;
                    trace := trace s |}).

Definition next_connect : M nat :=
  fun s => Some (connect_calls s,
                 {| now := now s; timers := timers s;
                    next_timer := next_timer s;
                    serve_calls := serve_calls s;
                    connect_calls := S (connect_calls s);
                    unlink_calls := unlink_calls s;
                    trace := trace s |}).

Definition next_unlink : M nat :=
  fun s => Some (unlink_calls s,
                 {| now := now s; timers := timers s;
                    next_timer := next_timer s;
                    serve_calls := serve_calls s;
                    connect_calls := connect_calls s;
                    unlink_calls := S (unlink_calls s);
                    trace := trace s |}).

Section WithWorld.

Variable env : Environment.
Variable w : World.

(** [showStartupWarningDialog(message, detail)] *)
Definition showStartupWarningDialog (message detail : string) : M unit :=
  emit (ShowStartupWarningDialog message detail).

(** The callback of the start-up warning timer. *)
Definition notRespondingWarning : list Event :=
  [ShowStartupWarningDialog
     (localize env "secondInstanceNoResponse"
        "Another instance of {0} is running but not responding"
        [nameShort env])
     (localize env "secondInstanceNoResponseDetail"
        "Please close all other instances and try again." [])].

Definition sentEnvMessage : string :=
  "Sent env to running instance. Terminating...".

Definition testsConflictMessage : string :=
  "Running extension tests from the command line is currently only supported if no other instance of Code is running.".

Definition psWarning : string :=
  "Warning: The --ps argument can only be used if Code is already running. Please run it again after Code has started.".

(** [allowSetForegroundWindow(service)]: only on Windows; the [try]
    covers loading the native module and calling it, not the query
    for the process id. *)
Definition allowSetForegroundWindow : M (TPromise unit) :=
  if isWindows env then
    emit GetMainProcessId ;;;
    await (latency w OpGetMainProcessId) ;;;
    match getMainProcessId_outcome w with
    | Rejected e => ret (Rejected e)
    | Resolved processId =>
        emit (LogInfo [LStr "Sending some foreground love to the running instance:";
                       LNum processId]) ;;;
        match foreground_outcome w with
        | GrantOk => emit (ForegroundGrant processId)
        | GrantThrows _ => emit (ForegroundGrant processId)
        | RequireThrows _ => ret tt
        end ;;;
        ret (Resolved tt)
    end
  else ret (Resolved tt).

(** The body of [setup(retry)], with the recursive call left open. *)
Definition setup_body (setup : bool -> M (TPromise Server)) (retry : bool)
  : M (TPromise Server) :=
  emit (EnterSetup retry) ;;;
  k <- next_serve ;;
  emit (Serve (mainIPCHandle env)) ;;;
  await (latency w OpServe) ;;;
  match serve_outcome w k with
  | None =>
      when (isMacintosh env) (emit DockShow) ;;;
      when (args_ps env) (emit (ConsoleLog psWarning)) ;;;
      ret (Resolved (mkServer (mainIPCHandle env)))
  | Some err =>
      if negb (code_is err "EADDRINUSE") then ret (Rejected err)
      else
        when (isMacintosh env) (emit DockHide) ;;;
        k <- next_connect ;;
        emit (Connect (mainIPCHandle env)) ;;;
        await (latency w OpConnect) ;;;
        match connect_outcome w k with
        | None =>
            if truthy (extensionTestsPath env)
               && negb (debugExtensionHost_break env)
            then
              emit (LogError [LStr testsConflictMessage]) ;;;
              emit ClientDispose ;;;
              ret (Rejected (new_Error (capture_stack env) testsConflictMessage))
            else
              startupWarningDialogHandle <-
                (if negb (wait env)
                 then h <- setTimeout notRespondingWarning 10000%N ;; ret (Some h)
                 else ret None) ;;
              if args_ps env then
                emit GetMainProcessInfo ;;;
                await (latency w OpGetMainProcessInfo) ;;;
                match getMainProcessInfo_outcome w with
                | Rejected e => ret (Rejected e)
                | Resolved info =>
                    emit (ListProcesses (mainPID info)) ;;;
                    await (latency w OpListProcesses) ;;;
                    match listProcesses_outcome w (mainPID info) with
                    | Rejected e => ret (Rejected e)
                    | Resolved rootProcess =>
                        emit (ConsoleLog
                                (formatProcessList (host env) info rootProcess)) ;;;
                        ret (Rejected (new_ExpectedError (capture_stack env) ""))
                    end
                end
              else
                emit (LogInfo [LStr "Sending env to running instance..."]) ;;;
                granted <- allowSetForegroundWindow ;;
                match granted with
                | Rejected e => ret (Rejected e)
                | Resolved _ =>
                    emit (Start (args env) (process_env env)) ;;;
                    await (latency w OpStart) ;;;
                    match start_outcome w with
                    | Some e => ret (Rejected e)
                    | None =>
                        emit ClientDispose ;;;
                        match startupWarningDialogHandle with
                        | Some h =>
                            if (h =? 0)%nat then ret tt else clearTimeout h
                        | None => ret tt
                        end ;;;
                        ret (Rejected
                               (new_ExpectedError (capture_stack env) sentEnvMessage))
                    end
                end
        | Some err =>
            if negb retry || isWindows env || negb (code_is err "ECONNREFUSED")
            then
              when (code_is err "EPERM")
                (showStartupWarningDialog
                   (localize env "secondInstanceAdmin"
                      "A second instance of {0} is already running as administrator."
                      [nameShort env])
                   (localize env "secondInstanceAdminDetail"
                      "Please close the other instance and try again." [])) ;;;
              ret (Rejected err)
            else
              k <- next_unlink ;;
              emit (Unlink (mainIPCHandle env)) ;;;
              match unlink_outcome w k with
              | Some e =>
                  emit (LogInfo [LStr "Fatal error deleting obsolete instance handle";
                                 LErr e]) ;;;
                  ret (Rejected e)
              | None => setup false
              end
        end
  end.

(** [setup(retry)]; [budget] bounds the depth of the recursion. *)
Fixpoint setup (budget : nat) (retry : bool) : M (TPromise Server) :=
  match budget with
  | O => out_of_budget
  | S budget' => setup_body (setup budget') retry
  end.

(** [setupIPC]: [return setup(true)] *)
Definition setupIPC (budget : nat) : M (TPromise Server) := setup budget true.

End WithWorld.

(** *** The vocabulary of the statements *)

Definition is_Unlink (e : Event) : bool :=
  match e with Unlink _ => true | _ => false end.
Definition is_Serve (e : Event) : bool :=
  match e with Serve _ => true | _ => false end.
Definition is_Start (e : Event) : bool :=
  match e with Start _ _ => true | _ => false end.
Definition is_SetTimeout (e : Event) : bool :=
  match e with SetTimeout _ _ => true | _ => false end.
Definition is_ClearTimeout (e : Event) : bool :=
  match e with ClearTimeout _ => true | _ => false end.
Definition is_TimerFired (e : Event) : bool :=
  match e with TimerFired _ => true | _ => false end.
Definition is_Dialog (e : Event) : bool :=
  match e with ShowStartupWarningDialog _ _ => true | _ => false end.
Definition is_ConsoleLog (e : Event) : bool :=
  match e with ConsoleLog _ => true | _ => false end.
(** A request on the launch channel. *)
Definition is_ChannelRequest (e : Event) : bool :=
  match e with
  | GetMainProcessId | GetMainProcessInfo | Start _ _ => true
  | _ => false
  end.

Definition count (p : Event -> bool) (l : list Event) : nat :=
  length (List.filter p l).

(** The retry flags of the calls of [setup], in order. *)
Fixpoint setup_entries (l : list Event) : list bool :=
  match l with
  | [] => []
  | EnterSetup r :: l' => r :: setup_entries l'
  | _ :: l' => setup_entries l'
  end.

(** An event satisfying [p] occurs, and none satisfying [q] before it. *)
Fixpoint first_before (p q : Event -> bool) (l : list Event) : bool :=
  match l with
  | [] => false
  | e :: l' => if p e then true else if q e then false else first_before p q l'
  end.

(** An event satisfying [q] occurs somewhere after one satisfying [p]. *)
Fixpoint occurs_after (p q : Event -> bool) (l : list Event) : bool :=
  match l with
  | [] => false
  | e :: l' => if p e then existsb q l' else occurs_after p q l'
  end.

Definition is_ForegroundGrant (e : Event) : bool :=
  match e with ForegroundGrant _ => true | _ => false end.

(** The guard on extension test runs started from the command line. *)
Definition tests_conflict (env : Environment) : bool :=
  truthy (extensionTestsPath env) && negb (debugExtensionHost_break env).

(** The first bind found the address in use, the first connect was
    refused, a retry is allowed and the platform is not Windows. *)
Definition stale_detected (env : Environment) (w : World) (retry : bool)
  : bool :=
  match serve_outcome w 0, connect_outcome w 0 with
  | Some e1, Some e2 =>
      code_is e1 "EADDRINUSE" && retry && negb (isWindows env)
      && code_is e2 "ECONNREFUSED"
  | _, _ => false
  end.

(** The same world with another end of the foreground grant. *)
Definition with_grant (g : GrantResult) (w : World) : World :=
  {| serve_outcome := serve_outcome w;
     connect_outcome := connect_outcome w;
     unlink_outcome := unlink_outcome w;
     getMainProcessId_outcome := getMainProcessId_outcome w;
     foreground_outcome := g;
     start_outcome := start_outcome w;
     getMainProcessInfo_outcome := getMainProcessInfo_outcome w;
     listProcesses_outcome := listProcesses_outcome w;
     latency := latency w |}.


(** The result and the trace of a run from the initial state. *)
Definition run {A : Type} (m : M A) : option (A * list Event) :=
  match m initial with
  | Some (a, s) => Some (a, trace s)
  | None => None
  end.

End Coordinator.

(* ===================================================================== *)
(** ** [quit]                                                             *)
(* ===================================================================== *)

Module Quit.
Import Errors.

Inductive Effect : Type :=
| LogServiceInfo (message : string)
| ConsoleError (text : string)
| Kill (exitCode : Z).

(** [Error.prototype.toString] *)
Definition toString (e : JsError) : string :=
  if String.eqb (err_name e) "" then err_message e
  else if String.eqb (err_message e) "" then err_name e
  else err_name e +:+ ": " +:+ err_message e.

(** [quit(accessor, reason)], as the effects it has, in order. *)
Definition quit (reason : option JsError) : list Effect :=
  let exitCode := 0 in
  let '(exitCode, effects) :=
    match reason with
    | Some reason =>
        if isExpected reason then (exitCode, [LogServiceInfo (err_message reason)])
        else
          let exitCode := 1 in
          if truthy (err_stack reason)
          then (exitCode, [ConsoleError (JS.template (err_stack reason))])
          else (exitCode, [ConsoleError ("Startup error: " +:+ toString reason)])
    | None => (exitCode, [])
    end in
  effects ++ [Kill exitCode].

Definition exit_code (effects : list Effect) : option Z :=
  match flat_map (fun e => match e with Kill c => [c] | _ => [] end) effects with
  | [c] => Some c
  | _ => None
  end.

Definition stderr (effects : list Effect) : list string :=
  flat_map (fun e => match e with ConsoleError t => [t] | _ => [] end) effects.

Definition info_log (effects : list Effect) : list string :=
  flat_map (fun e => match e with LogServiceInfo t => [t] | _ => [] end) effects.

End Quit.

(* ===================================================================== *)
(** ** Sample hosts, trees and worlds                                     *)
(* ===================================================================== *)

Module Samples.
Import Errors Formatter Coordinator.

(** A host with 8 GiB of memory. The samples only print integers below
    [2^53], so the two fall-backs of the number formatting are not
    reached. *)
Definition host8G : Host :=
  {| applicationName := "code";
     os_totalmem := 8589934592%float;
     header_block := [];
     shortest_repr := fun _ => "?";
     parse_numeric := fun _ => nan |}.

Definition leaf (n : string) (p : Z) (l mm : float) : ProcessItem :=
  mkProcessItem n p l mm None.

(** A main process with one window process whose pid has no window. *)
Definition lone_renderer : ProcessItem :=
  mkProcessItem "electron" 100 0%float 12.5%float
    (Some [leaf "renderer" 101 0%float 0%float]).

Definition no_windows : IMainProcessInfo :=
  {| mainPID := 100; windows := [] |}.

Definition one_window : IMainProcessInfo :=
  {| mainPID := 100; windows := [mkWindowInfo 101 "notes.txt"] |}.

Definition address_in_use : JsError :=
  mkJsError "Error" "listen EADDRINUSE" None (Some "EADDRINUSE") false.

Definition connection_refused : JsError :=
  mkJsError "Error" "connect ECONNREFUSED" None (Some "ECONNREFUSED") false.

Definition permission_denied : JsError :=
  mkJsError "Error" "connect EPERM" None (Some "EPERM") false.


Definition stack_of (msg : string) : option string :=
  Some ("Error: " +:+ msg).

(** A second launch on Linux: [code --open /tmp/x]. *)
Definition linux : Environment :=
  {| isWindows := false; isMacintosh := false;
     mainIPCHandle := "/run/user/1000/code.sock";
     args_ps := false; wait := false;
     extensionTestsPath := None; debugExtensionHost_break := false;
     args := ["--open"; "/tmp/x"]; process_env := [("A", "1")];
     nameShort := "Code";
     localize := fun key _ _ => key;
     capture_stack := stack_of;
     host := host8G |}.

Definition with_ps (env : Environment) : Environment :=
  {| isWindows := isWindows env; isMacintosh := isMacintosh env;
     mainIPCHandle := mainIPCHandle env;
     args_ps := true; wait := wait env;
     extensionTestsPath := extensionTestsPath env;
     debugExtensionHost_break := debugExtensionHost_break env;
     args := args env; process_env := process_env env;
     nameShort := nameShort env; localize := localize env;
     capture_stack := capture_stack env; host := host env |}.

Definition with_tests (path : string) (env : Environment) : Environment :=
  {| isWindows := isWindows env; isMacintosh := isMacintosh env;
     mainIPCHandle := mainIPCHandle env;
     args_ps := args_ps env; wait := wait env;
     extensionTestsPath := Some path;
     debugExtensionHost_break := debugExtensionHost_break env;
     args := args env; process_env := process_env env;
     nameShort := nameShort env; localize := localize env;
     capture_stack := capture_stack env; host := host env |}.

Definition on_windows (env : Environment) : Environment :=
  {| isWindows := true; isMacintosh := false;
     mainIPCHandle := mainIPCHandle env;
     args_ps := args_ps env; wait := wait env;
     extensionTestsPath := extensionTestsPath env;
     debugExtensionHost_break := debugExtensionHost_break env;
     args := args env; process_env := process_env env;
     nameShort := nameShort env; localize := localize env;
     capture_stack := capture_stack env; host := host env |}.

(** A live primary holds the endpoint and answers every request after
    5 ms. *)
Definition live_peer : World :=
  {| serve_outcome := fun _ => Some address_in_use;
     connect_outcome := fun _ => None;
     unlink_outcome := fun _ => None;
     getMainProcessId_outcome := Resolved 100;
     foreground_outcome := GrantOk;
     start_outcome := None;
     getMainProcessInfo_outcome := Resolved one_window;
     listProcesses_outcome := fun _ => Resolved lone_renderer;
     latency := fun _ => 5%N |}.

(** The endpoint file was left behind: nobody listens, and nobody does
    after the file is deleted and the bind fails again. *)
Definition stale_twice : World :=
  {| serve_outcome := fun _ => Some address_in_use;
     connect_outcome := fun _ => Some connection_refused;
     unlink_outcome := fun _ => None;
     getMainProcessId_outcome := Resolved 100;
     foreground_outcome := GrantOk;
     start_outcome := None;
     getMainProcessInfo_outcome := Resolved one_window;
     listProcesses_outcome := fun _ => Resolved lone_renderer;
     latency := fun _ => 5%N |}.

(** A primary running as administrator. *)
Definition elevated_peer : World :=
  {| serve_outcome := fun _ => Some address_in_use;
     connect_outcome := fun _ => Some permission_denied;
     unlink_outcome := fun _ => None;
     getMainProcessId_outcome := Resolved 100;
     foreground_outcome := GrantOk;
     start_outcome := None;
     getMainProcessInfo_outcome := Resolved one_window;
     listProcesses_outcome := fun _ => Resolved lone_renderer;
     latency := fun _ => 5%N |}.


End Samples.

(* ===================================================================== *)
(** ** What the statements about the coordinator observe            *)
(* ===================================================================== *)

Module Observations.
Import Errors Formatter Coordinator.

Definition is_Connect (e : Event) : bool :=
  match e with Connect _ => true | _ => false end.
Definition is_ClientDispose (e : Event) : bool :=
  match e with ClientDispose => true | _ => false end.
Definition is_DockShow (e : Event) : bool :=
  match e with DockShow => true | _ => false end.
Definition is_DockHide (e : Event) : bool :=
  match e with DockHide => true | _ => false end.

(** Whether the dock is shown after the events of a run, when the run
    touched it at all. *)
Fixpoint dock_shown (l : list Event) (before : option bool) : option bool :=
  match l with
  | [] => before
  | DockShow :: l' => dock_shown l' (Some true)
  | DockHide :: l' => dock_shown l' (Some false)
  | _ :: l' => dock_shown l' before
  end.

Definition is_resolved {A : Type} (p : TPromise A) : bool :=
  match p with Resolved _ => true | Rejected _ => false end.

(** The time a launch spends waiting for the peer once the warning timer is
    set: the two requests of the report with [--ps], and otherwise the
    query for the process id (Windows only) and the start request. *)
Definition peer_wait (env : Environment) (w : World) : N :=
  if args_ps env
  then (latency w OpGetMainProcessInfo + latency w OpListProcesses)%N
  else ((if isWindows env then latency w OpGetMainProcessId else 0)
        + latency w OpStart)%N.

End Observations.

(* ===================================================================== *)
(** ** [createPaths] and [main]                                           *)
(* ===================================================================== *)

Module Main.
Import Errors Formatter Coordinator.

(** The directories of the environment service that [createPaths] makes;
    a path may be missing. *)
Record StartupPaths : Type :=
  mkStartupPaths {
    appSettingsHome : option string;
    extensionsPath : option string;
    nodeCachedDataDir : option string;
    logsPath : option string
  }.

(** Everything [main] does to the outside, in order. *)
Inductive MainEvent : Type :=
| ConsoleErrorMessage (text : string)
| AppExit (code : Z)
| Mkdirp (path : string)
| Ipc (e : Event)
| Startup (mainIpcServer : Server) (instanceEnv : list (string * option string))
| Quitting (e : Quit.Effect).

(** One launch of the program. [argv_outcome] is what
    [parseMainProcessArgv] and [validatePaths] make of the command line,
    seen through the services [createServices] builds from it, or what they
    throw. [join_error] is the value [TPromise.join] rejects with, given how
    each of the joined values ended; [env_lookup] and [assign_env] are
    [process.env[key]] and [assign(process.env, ...)]. *)
Record Launch : Type :=
  mkLaunch {
    argv_outcome : (Environment * StartupPaths) + JsError;
    process_pid : N;
    env_lookup : list (string * string) -> string -> option string;
    assign_env : list (string * string) -> list (string * option string)
                 -> list (string * string);
    mkdirp_outcome : string -> option JsError;
    join_error : list (option JsError) -> JsError;
    startup_outcome : option JsError;
    world : World
  }.

Section WithLaunch.

Variable launch : Launch.

(** [p && mkdirp(p)]: the call made for a path, if any, and how it ends. *)
Definition make_path (p : option string) : list MainEvent * option JsError :=
  match p with
  | Some path =>
      if String.eqb path "" then ([], None)
      else ([Mkdirp path], mkdirp_outcome launch path)
  | None => ([], None)
  end.

(** [createPaths(environmentService)]: every call of [mkdirp] is made
    before the results are joined. *)
Definition createPaths (paths : StartupPaths)
  : list MainEvent * TPromise unit :=
  let made :=
    map make_path
      [appSettingsHome paths; extensionsPath paths;
       nodeCachedDataDir paths; logsPath paths] in
  let results := map snd made in
  (flat_map fst made,
   if forallb (fun r => match r with None => true | Some _ => false end) results
   then Resolved tt
   else Rejected (join_error launch results)).

Definition instanceEnv (env : Environment) : list (string * option string) :=
  [("VSCODE_PID", Some (JS.decimal (process_pid launch)));
   ("VSCODE_IPC_HOOK", Some (mainIPCHandle env));
   ("VSCODE_NLS_CONFIG", env_lookup launch (process_env env) "VSCODE_NLS_CONFIG");
   ("VSCODE_LOGS", env_lookup launch (process_env env) "VSCODE_LOGS")].

(** The environment service once [process.env] is patched. *)
Definition patched (env : Environment) : Environment :=
  {| isWindows := isWindows env; isMacintosh := isMacintosh env;
     mainIPCHandle := mainIPCHandle env;
     args_ps := args_ps env; wait := wait env;
     extensionTestsPath := extensionTestsPath env;
     debugExtensionHost_break := debugExtensionHost_break env;
     args := args env;
     process_env := assign_env launch (process_env env) (instanceEnv env);
     nameShort := nameShort env; localize := localize env;
     capture_stack := capture_stack env; host := host env |}.

(** [instantiationService.invokeFunction(quit, err)] *)
Definition quitting (err : JsError) : list MainEvent :=
  map Quitting (Quit.quit (Some err)).

(** [main()]; [budget] bounds the recursion of [setup]. *)
Definition main (budget : nat) : option (list MainEvent) :=
  match argv_outcome launch with
  | inr err => Some [ConsoleErrorMessage (err_message err); AppExit 1]
  | inl (env, paths) =>
      let '(made, created) := createPaths paths in
      match created with
      | Rejected err => Some (made ++ quitting err)
      | Resolved _ =>
          match run (setupIPC (patched env) (world launch) budget) with
          | None => None
          | Some (Rejected err, tr) =>
              Some (made ++ map Ipc tr ++ quitting err)
          | Some (Resolved mainIpcServer, tr) =>
              Some (made ++ map Ipc tr
                      ++ Startup mainIpcServer (instanceEnv env)
                      :: match startup_outcome launch with
                         | Some err => quitting err
                         | None => []
                         end)
          end
      end
  end.

End WithLaunch.

(** *** The vocabulary of the statements *)

Definition is_Mkdirp (e : MainEvent) : bool :=
  match e with Mkdirp _ => true | _ => false end.
Definition is_Ipc (e : MainEvent) : bool :=
  match e with Ipc _ => true | _ => false end.
Definition is_Startup (e : MainEvent) : bool :=
  match e with Startup _ _ => true | _ => false end.
(** The process is ended: [app.exit] or [lifecycleService.kill]. *)
Definition is_Exit (e : MainEvent) : bool :=
  match e with
  | AppExit _ | Quitting (Quit.Kill _) => true
  | _ => false
  end.

(** The code the process is ended with, if it is. *)
Fixpoint launch_exit_code (l : list MainEvent) : option Z :=
  match l with
  | [] => None
  | AppExit c :: _ => Some c
  | Quitting (Quit.Kill c) :: _ => Some c
  | _ :: l' => launch_exit_code l'
  end.

(** What a launch writes to standard error. *)
Definition launch_stderr (l : list MainEvent) : list string :=
  flat_map (fun e => match e with
                     | ConsoleErrorMessage t => [t]
                     | Quitting (Quit.ConsoleError t) => [t]
                     | _ => []
                     end) l.

(** The paths [mkdirp] is called with. *)
Definition made_paths (l : list MainEvent) : list string :=
  flat_map (fun e => match e with Mkdirp p => [p] | _ => [] end) l.

(** The paths of the environment service that are not empty, in the order
    [createPaths] lists them. *)
Definition wanted_of (ps : list (option string)) : list string :=
  flat_map (fun p => match p with
                     | Some path => if String.eqb path "" then [] else [path]
                     | None => []
                     end) ps.

Definition wanted_paths (paths : StartupPaths) : list string :=
  wanted_of [appSettingsHome paths; extensionsPath paths;
             nodeCachedDataDir paths; logsPath paths].

(** Nothing follows the event that ends the process. *)
Fixpoint ends_at_exit (l : list MainEvent) : bool :=
  match l with
  | [] => true
  | e :: l' =>
      if is_Exit e then match l' with [] => true | _ => false end
      else ends_at_exit l'
  end.

(** No event satisfying [q] comes before one satisfying [p]. *)
Fixpoint all_before (p q : MainEvent -> bool) (l : list MainEvent) : bool :=
  match l with
  | [] => true
  | e :: l' => (if q e then negb (existsb p l') else true) && all_before p q l'
  end.

(** Events that neither end the process, nor write to standard error, nor
    start the application. *)
Definition quiet (e : MainEvent) : Prop :=
  match e with
  | Mkdirp _ | Ipc _ => True
  | _ => False
  end.

End Main.

(* ===================================================================== *)
(** ** More sample reports, worlds and launches                           *)
(* ===================================================================== *)

Module MoreSamples.
Import Errors Formatter Coordinator Main.

(** Nobody holds the endpoint. *)
Definition fresh : World :=
  {| serve_outcome := fun _ => None;
     connect_outcome := fun _ => None;
     unlink_outcome := fun _ => None;
     getMainProcessId_outcome := Resolved 100;
     foreground_outcome := GrantOk;
     start_outcome := None;
     getMainProcessInfo_outcome := Resolved Samples.one_window;
     listProcesses_outcome := fun _ => Resolved Samples.lone_renderer;
     latency := fun _ => 5%N |}.

(** The endpoint file was left behind; once it is deleted the bind
    succeeds. *)
Definition stale_once : World :=
  {| serve_outcome :=
       fun k => match k with
                | O => Some Samples.address_in_use
                | S _ => None
                end;
     connect_outcome := fun _ => Some Samples.connection_refused;
     unlink_outcome := fun _ => None;
     getMainProcessId_outcome := Resolved 100;
     foreground_outcome := GrantOk;
     start_outcome := None;
     getMainProcessInfo_outcome := Resolved Samples.one_window;
     listProcesses_outcome := fun _ => Resolved Samples.lone_renderer;
     latency := fun _ => 5%N |}.

Definition channel_closed : JsError :=
  mkJsError "Error" "Channel closed" None None false.

(** A live primary that rejects the start request. *)
Definition peer_rejects_start : World :=
  {| serve_outcome := fun _ => Some Samples.address_in_use;
     connect_outcome := fun _ => None;
     unlink_outcome := fun _ => None;
     getMainProcessId_outcome := Resolved 100;
     foreground_outcome := GrantOk;
     start_outcome := Some channel_closed;
     getMainProcessInfo_outcome := Resolved Samples.one_window;
     listProcesses_outcome := fun _ => Resolved Samples.lone_renderer;
     latency := fun _ => 5%N |}.

(** A live primary that takes 20 s to acknowledge the start request. *)
Definition slow_peer : World :=
  {| serve_outcome := fun _ => Some Samples.address_in_use;
     connect_outcome := fun _ => None;
     unlink_outcome := fun _ => None;
     getMainProcessId_outcome := Resolved 100;
     foreground_outcome := GrantOk;
     start_outcome := None;
     getMainProcessInfo_outcome := Resolved Samples.one_window;
     listProcesses_outcome := fun _ => Resolved Samples.lone_renderer;
     latency := fun op => match op with
                          | OpStart => 20000%N
                          | _ => 5%N
                          end |}.

Definition mac : Environment :=
  {| isWindows := false; isMacintosh := true;
     mainIPCHandle := "/Users/me/Library/code.sock";
     args_ps := false; wait := false;
     extensionTestsPath := None; debugExtensionHost_break := false;
     args := []; process_env := [];
     nameShort := "Code";
     localize := fun key _ _ => key;
     capture_stack := Samples.stack_of;
     host := Samples.host8G |}.

Definition shared_process : ProcessItem :=
  mkProcessItem "shared-process" 102 2.5%float 0%float None.

(** An item whose share of the memory could not be read. *)
Definition unreadable : ProcessItem :=
  mkProcessItem "gpu-process" 103 0%float nan None.

(** [process.env] with names compared as written, and values stored as the
    strings a template would print. *)
Definition lookup_exact (env : list (string * string)) (key : string)
  : option string :=
  option_map snd (find (fun kv => String.eqb (fst kv) key) env).

Fixpoint store_exact (env : list (string * string)) (key value : string)
  : list (string * string) :=
  match env with
  | [] => [(key, value)]
  | (k, v) :: env' =>
      if String.eqb k key then (k, value) :: env'
      else (k, v) :: store_exact env' key value
  end.

Definition assign_exact (env : list (string * string))
    (source : list (string * option string)) : list (string * string) :=
  fold_left (fun acc kv => store_exact acc (fst kv) (JS.template (snd kv)))
    source env.

Definition usual_paths : StartupPaths :=
  {| appSettingsHome := Some "/home/me/.config/Code/User";
     extensionsPath := Some "/home/me/.vscode/extensions";
     nodeCachedDataDir := None;
     logsPath := Some "/home/me/.config/Code/logs" |}.

Definition read_only : JsError :=
  mkJsError "Error" "EROFS: read-only file system" None (Some "EROFS") false.

(** [code --open /tmp/x] on Linux, pid 4242, in the given world. *)
Definition launch_in (w : World) (mkdirp : string -> option JsError) : Launch :=
  {| argv_outcome := inl (Samples.linux, usual_paths);
     process_pid := 4242%N;
     env_lookup := lookup_exact;
     assign_env := assign_exact;
     mkdirp_outcome := mkdirp;
     join_error := fun _ => read_only;
     startup_outcome := None;
     world := w |}.

Definition no_logs_dir (path : string) : option JsError :=
  if String.eqb path "/home/me/.config/Code/logs" then Some read_only else None.

End MoreSamples.

(* ===================================================================== *)
(** ** Facts about strings                                                *)
(* ===================================================================== *)

Lemma append_cons (ch : ascii) (a b : string) :
  String ch a +:+ b = String ch (a +:+ b).
Proof. reflexivity. Qed.

Lemma append_assoc (a b c : string) : (a +:+ b) +:+ c = a +:+ (b +:+ c).
Proof.
  induction a as [|ch a IH]; [reflexivity |].
  now rewrite !append_cons, IH.
Qed.

Lemma append_empty_r (a : string) : a +:+ "" = a.
Proof.
  induction a as [|ch a IH]; [reflexivity |].
  now rewrite append_cons, IH.
Qed.

Lemma length_append (a b : string) :
  String.length (a +:+ b) = (String.length a + String.length b)%nat.
Proof.
  induction a as [|ch a IH]; [reflexivity |].
  rewrite append_cons. cbn [String.length]. now rewrite IH.
Qed.

Lemma length_repeat (s : string) (count : nat) :
  String.length (Strings.repeat s count) = (count * String.length s)%nat.
Proof.
  induction count as [|k IH]; [reflexivity |].
  cbn [Strings.repeat]. rewrite length_append, IH. lia.
Qed.

(* ===================================================================== *)
(** ** The process report: rows, depths and annotations                   *)
(* ===================================================================== *)

Module FormatterFacts.
Import Formatter.

(** Induction over a process tree: the children of a node satisfy the
    property before the node does. *)
Lemma ProcessItem_tree_ind (P : ProcessItem -> Prop)
    (step : forall n p l m cs,
        Forall P (match cs with Some l' => l' | None => [] end) ->
        P (mkProcessItem n p l m cs)) :
  forall item, P item.
Proof.
  fix self 1. intros [n p l m cs]. apply step.
  destruct cs as [l'|]; [| constructor].
  induction l' as [|c l' IH]; constructor; [apply self | exact IH].
Qed.

Lemma fold_left_rows {A : Type} (step : list string -> A -> list string)
    (rows : A -> list string) (cs : list A) :
  Forall (fun c => forall out, step out c = out ++ rows c) cs ->
  forall out, fold_left step cs out = out ++ flat_map rows cs.
Proof.
  induction 1 as [|c cs Hc _ IH]; intros out; simpl.
  - now rewrite app_nil_r.
  - now rewrite Hc, IH, <- app_assoc.
Qed.

Section WithHost.
Variable host : Host.
Variable m : gmap Z string.

Lemma row_pushed (iname : string) ipid iload imem cs (indent : nat) :
  pad host (Number host (toFixed0 host iload)) 5 " " +:+ JS.TAB +:+
    pad host (Number host (toFixed0 host
                ((os_totalmem host * (imem / 100)) / MB)%float)) 6 " "
    +:+ JS.TAB +:+
    (if Nat.eqb indent 0%nat then applicationName host +:+ " main"
     else if String.eqb iname "renderer"
          then (Strings.repeat "  " indent +:+ " " +:+ iname) +:+ " (" +:+
                 JS.template (m !! ipid) +:+ ")"
          else Strings.repeat "  " indent +:+ " " +:+ iname)
  = table_row host m indent (mkProcessItem iname ipid iload imem cs).
Proof.
  unfold table_row, cpu_column, mem_column, name_column, annotation,
    indentation; simpl.
  destruct indent as [|k]; simpl; [reflexivity |].
  destruct (String.eqb iname "renderer").
  - now rewrite !append_assoc.
  - now rewrite append_empty_r.
Qed.

Lemma formatProcessItem_rows :
  forall item out depth,
    formatProcessItem host m out item depth = out ++ rows_of host m depth item.
Proof.
  induction item as [n p l mm cs IH] using ProcessItem_tree_ind.
  intros out depth. cbn [formatProcessItem].
  rewrite row_pushed with (cs := cs).
  unfold rows_of at 1. cbn [preorder map fst snd].
  destruct cs as [l'|].
  - rewrite fold_left_rows with (rows := rows_of host m (S depth)).
    + rewrite <- app_assoc. cbn [app]. f_equal. f_equal.
      clear IH.
      induction l' as [|c l' IHl]; simpl; [reflexivity |].
      now rewrite map_app, IHl.
    + eapply Forall_impl; [exact IH |]. intros c Hc out'.
      replace (depth + 1)%nat with (S depth) by lia. apply Hc.
  - reflexivity.
Qed.

Lemma rows_of_node (iname : string) ipid iload imem cs (depth : nat) :
  rows_of host m depth (mkProcessItem iname ipid iload imem cs)
  = table_row host m depth (mkProcessItem iname ipid iload imem cs)
      :: flat_map (rows_of host m (S depth))
           (children_list (mkProcessItem iname ipid iload imem cs)).
Proof.
  unfold rows_of at 1, children_list. cbn [preorder map fst snd item_children].
  f_equal. destruct cs as [l'|]; [| reflexivity].
  induction l' as [|c l' IHl]; [reflexivity |].
  cbn [flat_map]. now rewrite map_app, IHl.
Qed.

Lemma length_preorder (item : ProcessItem) :
  forall depth, length (preorder depth item) = item_count item.
Proof.
  induction item as [n p l mm cs IH] using ProcessItem_tree_ind.
  intros depth. cbn [preorder item_count length]. f_equal.
  destruct cs as [l'|]; [| reflexivity].
  induction IH as [|c l' Hc _ IHl]; [reflexivity |].
  cbn [flat_map map list_sum]. now rewrite length_app, Hc, IHl.
Qed.

End WithHost.

Lemma build_title_map_from (ws : list IWindowInfo) (pid : Z) :
  forall m0 : gmap Z string,
    fold_left (fun m w => <[window_pid w := window_title w]> m) ws m0 !! pid
    = match find_title ws pid with
      | Some t => Some t
      | None => m0 !! pid
      end.
Proof.
  induction ws as [|w ws IH]; intros m0; [reflexivity |].
  cbn [fold_left find_title]. rewrite IH.
  destruct (find_title ws pid) as [t|]; [reflexivity |].
  destruct (Z.eqb_spec (window_pid w) pid) as [->|Hne].
  - apply lookup_insert_eq.
  - now apply lookup_insert_ne.
Qed.

Lemma build_title_map_lookup (ws : list IWindowInfo) (pid : Z) :
  build_title_map ws !! pid = find_title ws pid.
Proof.
  unfold build_title_map. rewrite build_title_map_from.
  destruct (find_title ws pid); [reflexivity | apply lookup_empty].
Qed.

(** C9. The table has exactly one row per item of the tree, in pre-order
    (root first, then the children in their given order). The root row,
    depth 0, is labelled [<applicationName> main] whatever the item is
    called and has no indentation; a row at depth [d > 0] starts its name
    column with [d] times two spaces (followed by one separating space and
    the item's name). A root with two childless children gives three rows,
    at depths 0, 1 and 1. *)
Theorem table_rows_preorder (host : Host) (info : IMainProcessInfo)
    (root : ProcessItem) :
  let m := build_title_map (windows info) in
  let rows := formatProcessItem host m [] root 0 in
  rows = map (fun di => table_row host m di.1 di.2) (preorder 0 root)
  /\ length rows = item_count root
  /\ formatProcessList host info root
     = String.concat JS.LF
         (header_block host
            ++ [""; "CPU %" +:+ JS.TAB +:+ "Mem MB" +:+ JS.TAB +:+ "Process"]
            ++ rows)
  /\ (forall item,
        table_row host m 0 item
        = cpu_column host item +:+ JS.TAB +:+ mem_column host item +:+ JS.TAB
            +:+ applicationName host +:+ " main")
  /\ (forall depth item,
        table_row host m (S depth) item
        = cpu_column host item +:+ JS.TAB +:+ mem_column host item +:+ JS.TAB
            +:+ Strings.repeat "  " (S depth) +:+ " " +:+ item_name item
            +:+ annotation m (S depth) item)
  /\ (forall depth,
        String.length (Strings.repeat "  " depth) = (2 * depth)%nat)
  /\ (forall rn rp rl rm c1n c1p c1l c1m c2n c2p c2l c2m,
        let c1 := mkProcessItem c1n c1p c1l c1m None in
        let c2 := mkProcessItem c2n c2p c2l c2m None in
        let r := mkProcessItem rn rp rl rm (Some [c1; c2]) in
        map fst (preorder 0 r) = [0; 1; 1]%nat
        /\ formatProcessItem host m [] r 0
           = [table_row host m 0 r; table_row host m 1 c1; table_row host m 1 c2]).
Proof.
  intros m rows.
  assert (Hrows : rows = rows_of host m 0 root).
  { unfold rows. now rewrite formatProcessItem_rows. }
  repeat split.
  - exact Hrows.
  - rewrite Hrows. unfold rows_of. rewrite length_map. apply length_preorder.
  - unfold formatProcessList. fold m. cbv zeta.
    rewrite formatProcessItem_rows. fold rows. rewrite Hrows.
    now rewrite <- app_assoc.
  - intros depth. rewrite length_repeat. cbn [String.length]. lia.
  - intros. now rewrite formatProcessItem_rows.
Qed.

(** C8, as the code has it. A row below the root whose item is called
    [renderer] ends with an annotation in brackets: the title that
    [info.windows] gives for the item's pid (the last window with that pid)
    and, when no window has that pid, the text [undefined]. *)
Theorem renderer_row_annotation (host : Host) (info : IMainProcessInfo)
    (out : list string) (ipid : Z) (iload imem : float)
    (cs : option (list ProcessItem)) (depth : nat) :
  let m := build_title_map (windows info) in
  let item := mkProcessItem "renderer" ipid iload imem cs in
  let title := match find_title (windows info) ipid with
               | Some t => t
               | None => "undefined"
               end in
  formatProcessItem host m out item (S depth)
  = out ++
      (cpu_column host item +:+ JS.TAB +:+ mem_column host item +:+ JS.TAB +:+
         Strings.repeat "  " (S depth) +:+ " renderer (" +:+ title +:+ ")")
      :: flat_map (rows_of host m (S (S depth))) (children_list item).
Proof.
  intros m item title. unfold item at 1.
  rewrite formatProcessItem_rows, rows_of_node. fold item.
  f_equal. f_equal.
  unfold table_row, name_column, annotation, indentation, item, title, m.
  cbn [item_name item_pid Nat.eqb]. rewrite String.eqb_refl.
  rewrite build_title_map_lookup.
  destruct (find_title (windows info) ipid); reflexivity.
Qed.

(** C8, as the claim has it, fails: a window process whose pid has no
    entry in [info.windows] still gets an annotation, [(undefined)]. *)
Lemma renderer_without_window_not_omitted :
  let info := Samples.no_windows in
  let child := Samples.leaf "renderer" 101 0%float 0%float in
  let m := build_title_map (windows info) in
  find_title (windows info) (item_pid child) = None
  /\ formatProcessItem Samples.host8G m [] Samples.lone_renderer 0
     = ["    0" +:+ JS.TAB +:+ "  1024" +:+ JS.TAB +:+ "code main";
        "    0" +:+ JS.TAB +:+ "     0" +:+ JS.TAB +:+ "   renderer (undefined)"]
  /\ table_row Samples.host8G m 1 child
     <> "    0" +:+ JS.TAB +:+ "     0" +:+ JS.TAB +:+ "   renderer".
Proof.
  split; [reflexivity |]. split; [vm_compute; reflexivity |].
  vm_compute. discriminate.
Qed.

(** [round_half_up m e] is an integer nearest to [m * 2^e], and the
    larger of the two when [m * 2^e] lies half-way. *)
Lemma round_half_up_nearest (m : positive) (e : Z) :
  let num := Z.pos m * 2 ^ Z.max e 0 in
  let den := 2 ^ Z.max (- e) 0 in
  let n := JS.round_half_up m e in
  0 <= n
  /\ nearest_integer n num den
  /\ forall k, nearest_integer k num den -> k <= n.
Proof.
  intros num den n. unfold nearest_integer, JS.round_half_up in *.
  subst num den n.
  destruct (Z.leb_spec 0 e) as [He|He].
  - rewrite (Z.max_l e 0), (Z.max_r (- e) 0) by lia. change (2 ^ 0) with 1.
    assert (Hx : 0 < Z.pos m * 2 ^ e).
    { apply Z.mul_pos_pos; [lia | apply Z.pow_pos_nonneg; lia]. }
    set (x := Z.pos m * 2 ^ e) in *.
    repeat split; [lia | lia | intros k Hk; lia].
  - rewrite (Z.max_r e 0), (Z.max_l (- e) 0) by lia. change (2 ^ 0) with 1.
    rewrite Z.mul_1_r.
    pose proof (Pos2Z.is_pos m) as Hm.
    set (h := 2 ^ (- e - 1)).
    assert (Hh : 0 < h) by (apply Z.pow_pos_nonneg; lia).
    assert (Hd : 2 ^ (- e) = 2 * h).
    { unfold h. rewrite <- Z.pow_succ_r by lia. f_equal. lia. }
    rewrite Hd.
    pose proof (Z.div_mod (Z.pos m + h) (2 * h) ltac:(lia)) as Hdiv.
    pose proof (Z.mod_pos_bound (Z.pos m + h) (2 * h) ltac:(lia)) as Hmod.
    set (q := (Z.pos m + h) / (2 * h)) in *.
    set (r := (Z.pos m + h) mod (2 * h)) in *.
    repeat split; [nia | nia | intros k Hk; nia].
Qed.



End FormatterFacts.

(* ===================================================================== *)
(** ** The quit path                                                      *)
(* ===================================================================== *)

Module QuitFacts.
Import Errors Quit.

(** C4. Without a reason, or with a reason marked expected, [quit] ends
    the process with exit code 0 and writes nothing to standard error; the
    message of an expected reason goes to the information log. With any
    other reason the exit code is 1, nothing is logged as information, and
    standard error receives the stack when the error has a non-empty one,
    and otherwise the line [Startup error: ] followed by the error printed
    by [toString]. The errors the coordinator makes with [ExpectedError]
    are marked expected. *)
Theorem quit_exit_code (reason : option JsError) :
  (forall capture_stack msg,
      let sentinel := Some (new_ExpectedError capture_stack msg) in
      exit_code (quit sentinel) = Some 0
      /\ stderr (quit sentinel) = []
      /\ info_log (quit sentinel) = [msg])
  /\
  match reason with
  | None =>
      exit_code (quit reason) = Some 0
      /\ stderr (quit reason) = []
      /\ info_log (quit reason) = []
  | Some r =>
      if isExpected r then
        exit_code (quit reason) = Some 0
        /\ stderr (quit reason) = []
        /\ info_log (quit reason) = [err_message r]
      else
        exit_code (quit reason) = Some 1
        /\ info_log (quit reason) = []
        /\ stderr (quit reason)
           = [match err_stack r with
              | Some stack =>
                  if String.eqb stack "" then "Startup error: " +:+ toString r
                  else stack
              | None => "Startup error: " +:+ toString r
              end]
  end.
Proof.
  split; [intros; repeat split |].
  destruct reason as [r|]; [| repeat split].
  unfold quit. destruct (isExpected r); [repeat split |].
  unfold truthy. destruct (err_stack r) as [stack|]; [| repeat split].
  destruct (String.eqb stack ""); repeat split.
Qed.

End QuitFacts.

(* ===================================================================== *)
(** ** The coordinator: retries, deletions, timers and forwarding        *)
(* ===================================================================== *)

Module CoordinatorFacts.
Import Errors Formatter Coordinator.

(** Symbolic execution of a run: unfold the model, then split on what the
    world answers, innermost question first. *)
Ltac eval_run :=
  cbv beta iota zeta delta
    [run setupIPC setup setup_body allowSetForegroundWindow bind ret emit
     when await advance setTimeout clearTimeout next_serve next_connect
     next_unlink showStartupWarningDialog initial out_of_budget is_due fire
     now timers next_timer serve_calls connect_calls unlink_calls trace
     timer_handle timer_due timer_callback notRespondingWarning
     List.filter flat_map app negb orb andb Nat.eqb
     count setup_entries first_before occurs_after existsb length last
     is_Unlink is_Serve is_Start is_SetTimeout is_ClearTimeout
     is_TimerFired is_Dialog is_ConsoleLog is_ChannelRequest
     is_ForegroundGrant];
  cbn [with_grant serve_outcome connect_outcome unlink_outcome
       getMainProcessId_outcome foreground_outcome start_outcome
       getMainProcessInfo_outcome listProcesses_outcome latency].

Ltac no_match x :=
  lazymatch x with
  | context [match _ with _ => _ end] => fail
  | context [if _ then _ else _] => fail
  | _ => idtac
  end.

Ltac break_one :=
  match goal with
  | H : ?x = _ |- context [match ?x with _ => _ end] => rewrite H
  | H : ?x = _ |- context [if ?x then _ else _] => rewrite H
  | |- context [match ?x with _ => _ end] => no_match x; destruct x eqn:?
  | |- context [if ?x then _ else _] => no_match x; destruct x eqn:?
  end.

Ltac crunch := eval_run; repeat (break_one; eval_run).

Ltac settle :=
  cbn [andb orb negb] in *; try discriminate; try congruence;
  repeat (first [ eexists | split ]);
  intros; try reflexivity; try congruence; try discriminate; try lia.

(** C1. A launch that finds a stale endpoint (the first bind fails with
    EADDRINUSE, the first connect with ECONNREFUSED, on a platform other
    than Windows, [setupIPC] starting with the retry flag set) ends within
    two calls of [setup]: the endpoint is unlinked exactly once, and
    [setup] is entered again, with the flag false, exactly when the unlink
    succeeded, so there are as many binds as calls of [setup], at most two.
    If the second bind succeeds the launch becomes the primary; if the
    endpoint looks stale a second time the connect error is the result and
    nothing is unlinked or retried again. *)
Theorem stale_endpoint_single_retry
    (env : Environment) (w : World) (budget : nat) (e1 e2 : JsError) :
  (2 <= budget)%nat ->
  isWindows env = false ->
  serve_outcome w 0%nat = Some e1 -> code_is e1 "EADDRINUSE" = true ->
  connect_outcome w 0%nat = Some e2 -> code_is e2 "ECONNREFUSED" = true ->
  exists r tr,
    run (setupIPC env w budget) = Some (r, tr)
    /\ count is_Unlink tr = 1%nat
    /\ setup_entries tr
       = true :: match unlink_outcome w 0%nat with
                 | None => [false]
                 | Some _ => []
                 end
    /\ count is_Serve tr = length (setup_entries tr)
    /\ (unlink_outcome w 0%nat = None -> serve_outcome w 1%nat = None ->
        r = Resolved (mkServer (mainIPCHandle env)))
    /\ (forall e1' e2',
          unlink_outcome w 0%nat = None ->
          serve_outcome w 1%nat = Some e1' -> code_is e1' "EADDRINUSE" = true ->
          connect_outcome w 1%nat = Some e2' ->
          r = Rejected e2').
Proof.
  intros Hb Hwin Hs He1 Hc He2.
  destruct budget as [|[|b]]; [lia | lia |].
  unfold run, setupIPC.
  crunch.
  all: settle.
Qed.


(** C2. In a run of [setup retry] the endpoint is unlinked if and only if
    the first bind found the address in use, the first connect failed with
    ECONNREFUSED, [retry] is set and the platform is not Windows, and then
    only once. After any other failure of the first connect the connect
    error is the result and there is no further call of [setup] and no
    further bind; when the unlink itself throws, what it threw is the
    result, again with no further call of [setup] and no further bind. *)
Theorem stale_endpoint_deletion_guard
    (env : Environment) (w : World) (budget : nat) (retry : bool) :
  (2 <= budget)%nat ->
  exists r tr,
    run (setup env w budget retry) = Some (r, tr)
    /\ existsb is_Unlink tr = stale_detected env w retry
    /\ (count is_Unlink tr <= 1)%nat
    /\ (forall e1 e2,
          serve_outcome w 0%nat = Some e1 -> code_is e1 "EADDRINUSE" = true ->
          connect_outcome w 0%nat = Some e2 ->
          stale_detected env w retry = false ->
          r = Rejected e2 /\ setup_entries tr = [retry]
          /\ count is_Serve tr = 1%nat)
    /\ (forall e3,
          stale_detected env w retry = true ->
          unlink_outcome w 0%nat = Some e3 ->
          r = Rejected e3 /\ setup_entries tr = [retry]
          /\ count is_Serve tr = 1%nat).
Proof.
  intros Hb.
  destruct budget as [|[|b]]; [lia | lia |].
  unfold run, stale_detected.
  crunch.
  all: settle.
Qed.


(** C3, as the code has it. With [--ps] no run sends a start request. A
    run that finds the address in use and connects to a live peer prints
    the report last and ends with an [ExpectedError], provided it is not
    stopped as an extension test run (the check on [extensionTestsPath]
    comes before the one on [--ps]), the peer answers
    [getMainProcessInfo] and the processes can be listed. *)
Theorem diagnostic_mode_never_starts
    (env : Environment) (w : World) (budget : nat) :
  (2 <= budget)%nat ->
  args_ps env = true ->
  exists r tr,
    run (setupIPC env w budget) = Some (r, tr)
    /\ count is_Start tr = 0%nat
    /\ (forall e1 info root,
          serve_outcome w 0%nat = Some e1 -> code_is e1 "EADDRINUSE" = true ->
          connect_outcome w 0%nat = None ->
          tests_conflict env = false ->
          getMainProcessInfo_outcome w = Resolved info ->
          listProcesses_outcome w (mainPID info) = Resolved root ->
          r = Rejected (new_ExpectedError (capture_stack env) "")
          /\ isExpected (new_ExpectedError (capture_stack env) "") = true
          /\ count is_ConsoleLog tr = 1%nat
          /\ last tr
             = Some (ConsoleLog (formatProcessList (host env) info root))).
Proof.
  intros Hb Hps.
  destruct budget as [|[|b]]; [lia | lia |].
  unfold run, setupIPC, tests_conflict.
  crunch.
  all: settle.
Qed.


Lemma code_is_functional (e : JsError) (a b : string) :
  code_is e a = true -> code_is e b = true -> a = b.
Proof.
  unfold code_is. destruct (err_code e) as [c|]; [| discriminate].
  intros Ha Hb. apply String.eqb_eq in Ha, Hb. congruence.
Qed.

(** C5. When the first connect fails with EPERM the result is that very
    error (its [code] tells it from any other connect error), and before
    returning it the coordinator shows the "already running as
    administrator" warning, once, as the last thing it does; nothing is
    unlinked and [setup] is not called again. A connect error with another
    code that ends the run is returned without any warning dialog. *)
Theorem permission_denied_distinct
    (env : Environment) (w : World) (budget : nat) (retry : bool)
    (e1 e2 : JsError) :
  (1 <= budget)%nat ->
  serve_outcome w 0%nat = Some e1 -> code_is e1 "EADDRINUSE" = true ->
  connect_outcome w 0%nat = Some e2 ->
  (code_is e2 "EPERM" = true ->
     exists tr,
       run (setup env w budget retry) = Some (Rejected e2, tr)
       /\ count is_Dialog tr = 1%nat
       /\ last tr
          = Some (ShowStartupWarningDialog
                    (localize env "secondInstanceAdmin"
                       "A second instance of {0} is already running as administrator."
                       [nameShort env])
                    (localize env "secondInstanceAdminDetail"
                       "Please close the other instance and try again." []))
       /\ existsb is_Unlink tr = false
       /\ setup_entries tr = [retry])
  /\ (code_is e2 "EPERM" = false ->
      stale_detected env w retry = false ->
      exists tr,
        run (setup env w budget retry) = Some (Rejected e2, tr)
        /\ count is_Dialog tr = 0%nat
        /\ existsb is_Unlink tr = false
        /\ setup_entries tr = [retry]).
Proof.
  intros Hb Hs He1 Hc.
  destruct budget as [|b]; [lia |].
  split.
  - intros Hperm.
    assert (Hcr : code_is e2 "ECONNREFUSED" = false).
    { destruct (code_is e2 "ECONNREFUSED") eqn:Hcr; [| reflexivity].
      pose proof (code_is_functional _ _ _ Hperm Hcr). discriminate. }
    unfold run. crunch. all: settle.
  - intros Hperm. unfold run, stale_detected. rewrite Hs, Hc, He1.
    crunch. all: settle.
Qed.




(** The query for the peer's process id is a request on the launch
    channel, made outside the [try]: when it is rejected, the rejection is
    the result of the run and no start request is sent. *)
Remark pid_query_rejection_propagates
    (env : Environment) (w : World) (budget : nat) (e1 e : JsError) :
  (1 <= budget)%nat ->
  isWindows env = true -> args_ps env = false ->
  tests_conflict env = false ->
  serve_outcome w 0%nat = Some e1 -> code_is e1 "EADDRINUSE" = true ->
  connect_outcome w 0%nat = None ->
  getMainProcessId_outcome w = Rejected e ->
  exists tr,
    run (setupIPC env w budget) = Some (Rejected e, tr)
    /\ count is_Start tr = 0%nat
    /\ count is_ForegroundGrant tr = 0%nat.
Proof.
  intros Hb Hwin Hps Htests Hs He1 Hc Hpid.
  destruct budget as [|b]; [lia |].
  unfold run, setupIPC, tests_conflict in *.
  crunch.
  all: settle.
Qed.


(** *** The theorems at sample launches *)

Lemma stale_endpoint_single_retry_witness :
  exists r tr,
    run (setupIPC Samples.linux Samples.stale_twice 2) = Some (r, tr)
    /\ count is_Unlink tr = 1%nat
    /\ setup_entries tr = [true; false]
    /\ r = Rejected Samples.connection_refused.
Proof.
  destruct (stale_endpoint_single_retry Samples.linux Samples.stale_twice 2
              Samples.address_in_use Samples.connection_refused)
    as (r & tr & Hrun & Hunlink & Hentries & _ & _ & Hsecond);
    [lia | reflexivity | reflexivity | reflexivity | reflexivity
     | reflexivity |].
  exists r, tr. repeat split; try assumption.
  apply (Hsecond Samples.address_in_use Samples.connection_refused);
    reflexivity.
Defined.

Lemma stale_endpoint_deletion_guard_witness :
  exists r tr,
    run (setup (Samples.on_windows Samples.linux) Samples.stale_twice 2 true)
    = Some (r, tr)
    /\ existsb is_Unlink tr = false
    /\ r = Rejected Samples.connection_refused.
Proof.
  destruct (stale_endpoint_deletion_guard (Samples.on_windows Samples.linux)
              Samples.stale_twice 2 true)
    as (r & tr & Hrun & Hunlink & _ & Hother & _); [lia |].
  exists r, tr. repeat split; try assumption.
  apply (Hother Samples.address_in_use Samples.connection_refused);
    reflexivity.
Defined.

Lemma diagnostic_mode_never_starts_witness :
  exists r tr,
    run (setupIPC (Samples.with_ps Samples.linux) Samples.live_peer 2)
    = Some (r, tr)
    /\ count is_Start tr = 0%nat
    /\ r = Rejected (new_ExpectedError Samples.stack_of "")
    /\ last tr
       = Some (ConsoleLog
                 (formatProcessList Samples.host8G Samples.one_window
                    Samples.lone_renderer)).
Proof.
  destruct (diagnostic_mode_never_starts (Samples.with_ps Samples.linux)
              Samples.live_peer 2)
    as (r & tr & Hrun & Hstart & Hreport); [lia | reflexivity |].
  exists r, tr.
  destruct (Hreport Samples.address_in_use Samples.one_window
              Samples.lone_renderer)
    as (Hr & _ & _ & Hlast); try reflexivity.
  repeat split; assumption.
Defined.

(** C3, as the claim has it, fails: [--ps] together with
    [--extensionTestsPath] reaches the live peer and ends with an error
    that is not marked expected, and prints no report. *)
Lemma diagnostic_test_run_rejected :
  args_ps (Samples.with_tests "/ext/tests" (Samples.with_ps Samples.linux))
  = true
  /\ run (setupIPC
            (Samples.with_tests "/ext/tests" (Samples.with_ps Samples.linux))
            Samples.live_peer 2)
     = Some (Rejected (new_Error Samples.stack_of testsConflictMessage),
             [EnterSetup true;
              Serve "/run/user/1000/code.sock";
              Connect "/run/user/1000/code.sock";
              LogError [LStr testsConflictMessage];
              ClientDispose])
  /\ isExpected (new_Error Samples.stack_of testsConflictMessage) = false.
Proof. repeat split. Qed.

Lemma permission_denied_distinct_witness :
  exists tr,
    run (setup Samples.linux Samples.elevated_peer 1 true)
    = Some (Rejected Samples.permission_denied, tr)
    /\ count is_Dialog tr = 1%nat
    /\ existsb is_Unlink tr = false.
Proof.
  destruct (permission_denied_distinct Samples.linux Samples.elevated_peer 1
              true Samples.address_in_use Samples.permission_denied)
    as [Hperm _]; [lia | reflexivity | reflexivity | reflexivity |].
  destruct (Hperm eq_refl) as (tr & Hrun & Hdialog & _ & Hunlink & _).
  exists tr. repeat split; assumption.
Defined.




End CoordinatorFacts.

(* ===================================================================== *)
(** ** The coordinator: bounds, outcomes and what a run leaves behind  *)
(* ===================================================================== *)

Module CoordinatorMore.
Import Errors Formatter Coordinator Observations CoordinatorFacts.

Ltac eval_obs :=
  cbv beta iota zeta delta
    [is_Connect is_ClientDispose is_DockShow is_DockHide dock_shown
     is_resolved].

(** Use what the hypotheses say the peer answers, once the case at hand
    has decided their premises. *)
Ltac use_answers :=
  repeat match goal with
    | H : ?x = ?x -> _ |- _ => specialize (H eq_refl)
    | H : ex _ |- _ => destruct H
    end.

(** Cases whose comparisons of times contradict one another. *)
Ltac clock_contradiction :=
  exfalso;
  repeat match goal with
    | H : (_ <=? _)%N = true |- _ => apply N.leb_le in H
    | H : (_ <=? _)%N = false |- _ => apply N.leb_gt in H
    end;
  lia.

Ltac crunch_obs := eval_obs; eval_run; repeat (break_one; eval_obs; eval_run).

(** X1. Whatever the world answers, [setupIPC] ends within two calls of
    [setup]: a larger budget changes nothing, [setup] is entered with the
    flags [true] or [true; false], each call binds once and connects at most
    once, the endpoint is unlinked at most once, and there is a second bind
    only after an unlink. *)
Theorem setupIPC_bounded (env : Environment) (w : World) (budget : nat) :
  (2 <= budget)%nat ->
  exists r tr,
    run (setupIPC env w budget) = Some (r, tr)
    /\ run (setupIPC env w 2) = Some (r, tr)
    /\ (setup_entries tr = [true] \/ setup_entries tr = [true; false])
    /\ count is_Serve tr = length (setup_entries tr)
    /\ (count is_Connect tr <= count is_Serve tr)%nat
    /\ (count is_Unlink tr <= 1)%nat
    /\ (count is_Serve tr <= S (count is_Unlink tr))%nat.
Proof.
  intros Hb. destruct budget as [|[|b]]; [lia | lia |].
  unfold run, setupIPC.
  crunch_obs.
  all: settle.
  all: try (left; reflexivity).
  all: try (right; reflexivity).
Qed.


(** X2. When the first bind succeeds the launch is the primary at once: it
    gets the server of its own endpoint, shows the dock on macOS, prints the
    [--ps] warning if [--ps] was given, and does nothing else. When the
    first bind fails with anything but EADDRINUSE that error is the result
    and nothing else is attempted, not even a connect. *)
Theorem first_bind_decides (env : Environment) (w : World) (budget : nat)
    (retry : bool) :
  (1 <= budget)%nat ->
  (serve_outcome w 0%nat = None ->
   run (setup env w budget retry)
   = Some (Resolved (mkServer (mainIPCHandle env)),
           [EnterSetup retry; Serve (mainIPCHandle env)]
             ++ (if isMacintosh env then [DockShow] else [])
             ++ (if args_ps env then [ConsoleLog psWarning] else [])))
  /\ (forall err,
        serve_outcome w 0%nat = Some err ->
        code_is err "EADDRINUSE" = false ->
        run (setup env w budget retry)
        = Some (Rejected err, [EnterSetup retry; Serve (mainIPCHandle env)])).
Proof.
  intros Hb. destruct budget as [|b]; [lia |].
  split.
  - intros Hs. unfold run. crunch_obs. all: settle.
  - intros err Hs Hcode. unfold run. crunch_obs. all: settle.
Qed.

(** X3. A launch that becomes the primary got its server from the last
    bind it made and never talked to a peer: no request on the launch
    channel, no warning timer, no connection disposed, no dialog. A launch
    that connected to a live peer never becomes the primary, binds only once
    and deletes nothing. *)
Theorem primary_has_no_peer (env : Environment) (w : World) (budget : nat) :
  (2 <= budget)%nat ->
  exists r tr,
    run (setupIPC env w budget) = Some (r, tr)
    /\ (is_resolved r = true ->
        r = Resolved (mkServer (mainIPCHandle env))
        /\ serve_outcome w (count is_Serve tr - 1)%nat = None
        /\ existsb is_ChannelRequest tr = false
        /\ existsb is_SetTimeout tr = false
        /\ existsb is_ClientDispose tr = false
        /\ existsb is_Dialog tr = false)
    /\ (existsb is_ChannelRequest tr || existsb is_ClientDispose tr
        || existsb is_SetTimeout tr = true ->
        is_resolved r = false)
    /\ (forall e1,
          serve_outcome w 0%nat = Some e1 -> code_is e1 "EADDRINUSE" = true ->
          connect_outcome w 0%nat = None ->
          is_resolved r = false /\ count is_Serve tr = 1%nat
          /\ existsb is_Unlink tr = false).
Proof.
  intros Hb. destruct budget as [|[|b]]; [lia | lia |].
  unfold run, setupIPC.
  crunch_obs.
  all: settle.
  all: cbn [Nat.sub]; assumption.
Qed.


(** X4. The dock is only touched on macOS. There, after a launch that
    becomes the primary the dock is shown (also when it was hidden before a
    retry); after a launch that fails having tried to connect it is hidden;
    a launch that fails on its first bind leaves it alone. *)
Theorem dock_follows_outcome (env : Environment) (w : World) (budget : nat) :
  (2 <= budget)%nat ->
  exists r tr,
    run (setupIPC env w budget) = Some (r, tr)
    /\ (isMacintosh env = false ->
        existsb is_DockShow tr = false /\ existsb is_DockHide tr = false)
    /\ (isMacintosh env = true ->
        dock_shown tr None
        = if is_resolved r then Some true
          else if existsb is_Connect tr then Some false else None).
Proof.
  intros Hb. destruct budget as [|[|b]]; [lia | lia |].
  unfold run, setupIPC.
  crunch_obs.
  all: settle.
Qed.

(** X5. An extension test run started from the command line that finds a
    live instance logs the error, disposes the connection and fails with an
    ordinary [Error]: it never sets the warning timer and sends nothing on
    the launch channel, whatever the other flags and the platform. *)
Theorem test_run_never_uses_channel
    (env : Environment) (w : World) (budget : nat) (e1 : JsError) :
  (1 <= budget)%nat ->
  serve_outcome w 0%nat = Some e1 -> code_is e1 "EADDRINUSE" = true ->
  connect_outcome w 0%nat = None ->
  tests_conflict env = true ->
  run (setupIPC env w budget)
  = Some (Rejected (new_Error (capture_stack env) testsConflictMessage),
          [EnterSetup true; Serve (mainIPCHandle env)]
            ++ (if isMacintosh env then [DockHide] else [])
            ++ [Connect (mainIPCHandle env);
                LogError [LStr testsConflictMessage];
                ClientDispose]).
Proof.
  intros Hb Hs He1 Hc Htests. destruct budget as [|b]; [lia |].
  unfold run, setupIPC, tests_conflict in *.
  crunch_obs.
  all: settle.
Qed.

(** X6. When the peer rejects the start request, the rejection is the
    result, the connection is not disposed and the warning timer is not
    cleared: without [--wait] it has fired or is still pending. *)
Theorem rejected_start_leaves_connection
    (env : Environment) (w : World) (budget : nat) (e1 e : JsError) :
  (1 <= budget)%nat ->
  serve_outcome w 0%nat = Some e1 -> code_is e1 "EADDRINUSE" = true ->
  connect_outcome w 0%nat = None ->
  tests_conflict env = false -> args_ps env = false ->
  (isWindows env = true ->
   exists pid, getMainProcessId_outcome w = Resolved pid) ->
  start_outcome w = Some e ->
  exists s,
    setupIPC env w budget initial = Some (Rejected e, s)
    /\ count is_Start (trace s) = 1%nat
    /\ existsb is_ClientDispose (trace s) = false
    /\ existsb is_ClearTimeout (trace s) = false
    /\ (wait env = false ->
        (length (timers s) + count is_TimerFired (trace s))%nat = 1%nat).
Proof.
  intros Hb Hs He1 Hc Htests Hps Hpid Hstart.
  destruct budget as [|b]; [lia |].
  unfold setupIPC, tests_conflict in *.
  crunch_obs.
  all: use_answers; settle.
Qed.

(** X7. Without [--wait], the "not responding" dialog is shown exactly
    when the peer takes 10000 ms or more to answer (the two requests of the
    report with [--ps]; otherwise the query for the process id, on Windows,
    and the start request), and it is shown once. *)
Theorem warning_shown_iff_slow
    (env : Environment) (w : World) (budget : nat) (e1 : JsError) :
  (1 <= budget)%nat ->
  serve_outcome w 0%nat = Some e1 -> code_is e1 "EADDRINUSE" = true ->
  connect_outcome w 0%nat = None ->
  tests_conflict env = false -> wait env = false ->
  (args_ps env = false -> isWindows env = true ->
   exists pid, getMainProcessId_outcome w = Resolved pid) ->
  (args_ps env = true ->
   exists info, getMainProcessInfo_outcome w = Resolved info) ->
  exists r tr,
    run (setupIPC env w budget) = Some (r, tr)
    /\ count is_TimerFired tr
       = (if (10000 <=? peer_wait env w)%N then 1 else 0)%nat
    /\ count is_Dialog tr = count is_TimerFired tr.
Proof.
  intros Hb Hs He1 Hc Htests Hwait Hpid Hinfo.
  destruct budget as [|b]; [lia |].
  unfold run, setupIPC, tests_conflict, peer_wait in *.
  crunch_obs.
  all: use_answers; settle.
  all: clock_contradiction.
Qed.

(** X8. With [--ps] and a live peer, the run ends with a rejection and
    never disposes the connection, never clears the warning timer and never
    asks for the foreground grant; without [--wait] the timer has fired or
    is still pending when the run ends. *)
Theorem diagnostic_leaves_connection
    (env : Environment) (w : World) (budget : nat) (e1 : JsError) :
  (1 <= budget)%nat ->
  serve_outcome w 0%nat = Some e1 -> code_is e1 "EADDRINUSE" = true ->
  connect_outcome w 0%nat = None ->
  tests_conflict env = false -> args_ps env = true ->
  exists r s,
    setupIPC env w budget initial = Some (r, s)
    /\ is_resolved r = false
    /\ existsb is_ClientDispose (trace s) = false
    /\ existsb is_ClearTimeout (trace s) = false
    /\ existsb is_ForegroundGrant (trace s) = false
    /\ (wait env = false ->
        (length (timers s) + count is_TimerFired (trace s))%nat = 1%nat).
Proof.
  intros Hb Hs He1 Hc Htests Hps.
  destruct budget as [|b]; [lia |].
  unfold setupIPC, tests_conflict in *.
  crunch_obs.
  all: settle.
Qed.

(** *** The theorems at sample launches *)

Lemma setupIPC_bounded_witness :
  exists r tr,
    run (setupIPC Samples.linux Samples.stale_twice 5) = Some (r, tr)
    /\ run (setupIPC Samples.linux Samples.stale_twice 2) = Some (r, tr)
    /\ count is_Serve tr = 2%nat.
Proof.
  destruct (setupIPC_bounded Samples.linux Samples.stale_twice 5)
    as (r & tr & Hrun & Htwo & _); [lia |].
  exists r, tr. repeat split; try assumption.
  vm_compute in Htwo. injection Htwo as _ <-. reflexivity.
Defined.

Lemma first_bind_decides_witness :
  run (setup Samples.linux MoreSamples.fresh 1 true)
  = Some (Resolved (mkServer "/run/user/1000/code.sock"),
          [EnterSetup true; Serve "/run/user/1000/code.sock"]).
Proof.
  destruct (first_bind_decides Samples.linux MoreSamples.fresh 1 true)
    as [Hfree _]; [lia |].
  exact (Hfree eq_refl).
Defined.

Lemma primary_has_no_peer_witness :
  exists r tr,
    run (setupIPC Samples.linux Samples.live_peer 2) = Some (r, tr)
    /\ is_resolved r = false
    /\ count is_Serve tr = 1%nat.
Proof.
  destruct (primary_has_no_peer Samples.linux Samples.live_peer 2)
    as (r & tr & Hrun & _ & _ & Hlive); [lia |].
  destruct (Hlive Samples.address_in_use) as (Hr & Hserve & _);
    try reflexivity.
  exists r, tr. repeat split; assumption.
Defined.

Lemma dock_follows_outcome_witness :
  exists r tr,
    run (setupIPC MoreSamples.mac MoreSamples.stale_once 2) = Some (r, tr)
    /\ is_resolved r = true
    /\ existsb is_DockHide tr = true
    /\ dock_shown tr None = Some true.
Proof.
  destruct (dock_follows_outcome MoreSamples.mac MoreSamples.stale_once 2)
    as (r & tr & Hrun & _ & Hmac); [lia |].
  specialize (Hmac eq_refl).
  exists r, tr. split; [exact Hrun |].
  vm_compute in Hrun. injection Hrun as <- <-.
  repeat split.
Defined.

Lemma test_run_never_uses_channel_witness :
  run (setupIPC (Samples.with_tests "/ext/tests" Samples.linux)
         Samples.live_peer 1)
  = Some (Rejected (new_Error Samples.stack_of testsConflictMessage),
          [EnterSetup true;
           Serve "/run/user/1000/code.sock";
           Connect "/run/user/1000/code.sock";
           LogError [LStr testsConflictMessage];
           ClientDispose]).
Proof.
  apply (test_run_never_uses_channel
           (Samples.with_tests "/ext/tests" Samples.linux)
           Samples.live_peer 1 Samples.address_in_use);
    [lia | reflexivity | reflexivity | reflexivity | reflexivity].
Defined.

Lemma rejected_start_leaves_connection_witness :
  exists s,
    setupIPC Samples.linux MoreSamples.peer_rejects_start 1 initial
    = Some (Rejected MoreSamples.channel_closed, s)
    /\ existsb is_ClientDispose (trace s) = false
    /\ length (timers s) = 1%nat.
Proof.
  destruct (rejected_start_leaves_connection Samples.linux
              MoreSamples.peer_rejects_start 1 Samples.address_in_use
              MoreSamples.channel_closed)
    as (s & Hrun & _ & Hdispose & _ & _);
    [lia | reflexivity | reflexivity | reflexivity | reflexivity
     | reflexivity | discriminate | reflexivity |].
  exists s. repeat split; try assumption.
  vm_compute in Hrun. injection Hrun as <-. reflexivity.
Defined.

Lemma warning_shown_iff_slow_witness :
  exists r tr,
    run (setupIPC Samples.linux MoreSamples.slow_peer 1) = Some (r, tr)
    /\ count is_TimerFired tr = 1%nat
    /\ count is_Dialog tr = 1%nat.
Proof.
  destruct (warning_shown_iff_slow Samples.linux MoreSamples.slow_peer 1
              Samples.address_in_use)
    as (r & tr & Hrun & Hfired & Hdialog);
    [lia | reflexivity | reflexivity | reflexivity | reflexivity
     | reflexivity | discriminate | discriminate |].
  exists r, tr. repeat split; [assumption | exact Hfired |].
  rewrite Hdialog. exact Hfired.
Defined.

Lemma diagnostic_leaves_connection_witness :
  exists r s,
    setupIPC (Samples.with_ps Samples.linux) Samples.live_peer 1 initial
    = Some (r, s)
    /\ existsb is_ClientDispose (trace s) = false
    /\ existsb is_ClearTimeout (trace s) = false.
Proof.
  destruct (diagnostic_leaves_connection (Samples.with_ps Samples.linux)
              Samples.live_peer 1 Samples.address_in_use)
    as (r & s & Hrun & _ & Hdispose & Hclear & _);
    [lia | reflexivity | reflexivity | reflexivity | reflexivity
     | reflexivity |].
  exists r, s. repeat split; assumption.
Defined.

End CoordinatorMore.

(* ===================================================================== *)
(** ** The process report: titles, plain rows and edge values           *)
(* ===================================================================== *)

Module FormatterMore.
Import Formatter FormatterFacts.

Lemma find_title_app (ws1 ws2 : list IWindowInfo) (pid : Z) :
  find_title (ws1 ++ ws2) pid
  = match find_title ws2 pid with
    | Some t => Some t
    | None => find_title ws1 pid
    end.
Proof.
  induction ws1 as [|w ws1 IH]; cbn [app find_title].
  - now destruct (find_title ws2 pid).
  - rewrite IH. destruct (find_title ws2 pid); [reflexivity |].
    reflexivity.
Qed.

Lemma find_title_none (ws : list IWindowInfo) (pid : Z) :
  find_title ws pid = None <-> Forall (fun w => window_pid w <> pid) ws.
Proof.
  induction ws as [|w ws IH]; cbn [find_title].
  - split; [constructor | reflexivity].
  - destruct (find_title ws pid) as [t|] eqn:Hf.
    + split; [discriminate |]. intros H. inversion H; subst.
      apply IH in H3. discriminate.
    + destruct (Z.eqb_spec (window_pid w) pid) as [Heq|Hne].
      * split; [discriminate |]. intros H. inversion H; subst. contradiction.
      * split; [| reflexivity]. intros _. constructor; [exact Hne |].
        now apply IH.
Qed.

(** X9. In the map from pids to window titles the last window with a pid
    gives its title, a pid has no title exactly when no window has it, and
    one more window changes the title of its own pid only. *)
Theorem title_map_last_window_wins (ws1 ws2 : list IWindowInfo)
    (w : IWindowInfo) (pid : Z) :
  (Forall (fun w' => window_pid w' <> window_pid w) ws2 ->
   build_title_map (ws1 ++ w :: ws2) !! window_pid w = Some (window_title w))
  /\ (Forall (fun w' => window_pid w' <> pid) ws1 <->
      build_title_map ws1 !! pid = None)
  /\ (pid <> window_pid w ->
      build_title_map (ws1 ++ [w]) !! pid = build_title_map ws1 !! pid).
Proof.
  repeat split.
  - intros Hlater. rewrite build_title_map_lookup, find_title_app.
    cbn [find_title]. apply find_title_none in Hlater. rewrite Hlater.
    now rewrite Z.eqb_refl.
  - intros H. rewrite build_title_map_lookup. now apply find_title_none.
  - intros H. rewrite build_title_map_lookup in H. now apply find_title_none.
  - intros Hne. rewrite !build_title_map_lookup, find_title_app.
    cbn [find_title]. destruct (Z.eqb_spec (window_pid w) pid); [congruence |].
    reflexivity.
Qed.

(** X10. A row below the root whose item is not called [renderer] (the
    comparison is exact) is the two columns, the indentation, one space and
    the name, with nothing after the name; the rows of its children
    follow. *)
Theorem other_rows_not_annotated (host : Host) (m : gmap Z string)
    (out : list string) (item : ProcessItem) (depth : nat) :
  item_name item <> "renderer" ->
  formatProcessItem host m out item (S depth)
  = out ++
      (cpu_column host item +:+ JS.TAB +:+ mem_column host item +:+ JS.TAB +:+
         Strings.repeat "  " (S depth) +:+ " " +:+ item_name item)
      :: flat_map (rows_of host m (S (S depth))) (children_list item).
Proof.
  intros Hname. destruct item as [iname ipid iload imem cs].
  rewrite formatProcessItem_rows, rows_of_node. f_equal. f_equal.
  unfold table_row, name_column, annotation, indentation.
  cbn [item_name Nat.eqb] in *.
  apply String.eqb_neq in Hname. rewrite Hname.
  now rewrite append_empty_r.
Qed.

(** X11. The memory column at the edges: a value that is not a number is
    shown as [NaN], a zero of either sign as [0], a value that rounds to
    zero as [0] also when it is negative (never [-0]), and an infinite value
    as [Infinity] or [-Infinity], wider than the column. *)
Theorem mem_column_edge_values (host : Host) (item : ProcessItem) :
  let v := ((os_totalmem host * (item_mem item / 100)) / 1048576)%float in
  (Prim2SF v = S754_nan -> mem_column host item = "   NaN")
  /\ (forall s, Prim2SF v = S754_zero s -> mem_column host item = "     0")
  /\ (forall s m e,
        Prim2SF v = S754_finite s m e -> JS.at_least_1e21 m e = false ->
        JS.round_half_up m e = 0 ->
        mem_column host item = "     0")
  /\ (forall s, Prim2SF v = S754_infinity s ->
        mem_column host item = if s then "-Infinity" else "Infinity").
Proof.
  intros v. unfold mem_column, toFixed0, JS.toFixed0.
  change MB with 1048576%float. fold v.
  repeat split.
  - intros Hv. rewrite Hv. vm_compute. reflexivity.
  - intros s Hv. rewrite Hv. vm_compute. reflexivity.
  - intros s m e Hv Hbig Hround. rewrite Hv, Hbig, Hround.
    destruct s; vm_compute; reflexivity.
  - intros s Hv. rewrite Hv. destruct s; vm_compute; reflexivity.
Qed.

(** X12. The CPU column of a row is the padded number read from
    [toFixed(0)] of the item's load: for a load that is finite, not zero and
    below [10^21], the numeral of an integer nearest to it, half-way cases
    going up in magnitude, with the sign in front. *)
Theorem cpu_column_rounds_to_nearest (host : Host) (item : ProcessItem)
    (s : bool) (m : positive) (e : Z) :
  Prim2SF (item_load item) = S754_finite s m e ->
  JS.at_least_1e21 m e = false ->
  let num := Z.pos m * 2 ^ Z.max e 0 in
  let den := 2 ^ Z.max (- e) 0 in
  exists n : Z,
    0 <= n
    /\ nearest_integer n num den
    /\ (forall k, nearest_integer k num den -> k <= n)
    /\ cpu_column host item
       = pad host (Number host (JS.sign_prefix s +:+ JS.decimal (Z.to_N n))) 5 " "
    /\ forall mp out depth,
         exists name rest,
           formatProcessItem host mp out item depth
           = out ++
               (cpu_column host item +:+ JS.TAB +:+ mem_column host item
                  +:+ JS.TAB +:+ name) :: rest.
Proof.
  intros Hv Hbig num den.
  destruct (round_half_up_nearest m e) as (Hpos & Hnear & Hties).
  exists (JS.round_half_up m e). repeat split; try assumption.
  - unfold cpu_column, toFixed0, JS.toFixed0. now rewrite Hv, Hbig.
  - intros mp out depth. destruct item as [iname ipid iload imem cs].
    rewrite formatProcessItem_rows, rows_of_node.
    eexists _, _. reflexivity.
Qed.

(** *** The theorems at sample reports *)

Lemma title_map_last_window_wins_witness :
  build_title_map
    ([mkWindowInfo 101 "a.txt"] ++ mkWindowInfo 101 "b.txt" :: [])
    !! 101
  = Some "b.txt".
Proof.
  destruct (title_map_last_window_wins [mkWindowInfo 101 "a.txt"] []
              (mkWindowInfo 101 "b.txt") 101)
    as (Hlast & _).
  apply Hlast. constructor.
Defined.

Lemma other_rows_not_annotated_witness :
  formatProcessItem Samples.host8G ∅ [] MoreSamples.shared_process 1
  = ["    3" +:+ JS.TAB +:+ "     0" +:+ JS.TAB +:+ "   shared-process"].
Proof.
  rewrite (other_rows_not_annotated Samples.host8G ∅ []
             MoreSamples.shared_process 0); [| discriminate].
  vm_compute. reflexivity.
Defined.

Lemma mem_column_edge_values_witness :
  mem_column Samples.host8G MoreSamples.unreadable = "   NaN".
Proof.
  destruct (mem_column_edge_values Samples.host8G MoreSamples.unreadable)
    as (Hnan & _).
  apply Hnan. vm_compute. reflexivity.
Defined.

Lemma cpu_column_rounds_to_nearest_witness :
  exists n : Z,
    nearest_integer n (5629499534213120 * 2 ^ 0) (2 ^ 51)
    /\ cpu_column Samples.host8G MoreSamples.shared_process
       = pad Samples.host8G
           (Number Samples.host8G (JS.decimal (Z.to_N n))) 5 " "
    /\ cpu_column Samples.host8G MoreSamples.shared_process = "    3".
Proof.
  destruct (cpu_column_rounds_to_nearest Samples.host8G
              MoreSamples.shared_process false 5629499534213120 (-51))
    as (n & _ & Hnear & _ & Hcol & _).
  - vm_compute. reflexivity.
  - vm_compute. reflexivity.
  - exists n. split; [exact Hnear |]. split; [exact Hcol |].
    vm_compute. reflexivity.
Defined.

End FormatterMore.

(* ===================================================================== *)
(** ** The quit path: one kill, last                                    *)
(* ===================================================================== *)

Module QuitMore.
Import Errors Quit.

(** X13. [quit] calls [kill] exactly once, as the last thing it does and
    after at most one line of output, with code 0 or 1; the code is 0 exactly
    when nothing was written to standard error, and 1 exactly when there is
    a reason that is not marked expected. *)
Theorem quit_kills_once_last (reason : option JsError) :
  exists code before,
    quit reason = before ++ [Kill code]
    /\ (code = 0 \/ code = 1)
    /\ Forall (fun e => match e with Kill _ => False | _ => True end) before
    /\ (length before <= 1)%nat
    /\ (code = 0 <-> stderr (quit reason) = [])
    /\ (code = 1 <-> info_log (quit reason) = []
                     /\ exists r, reason = Some r /\ isExpected r = false).
Proof.
  unfold quit. destruct reason as [r|].
  - destruct (isExpected r) eqn:Hexp.
    + exists 0, [LogServiceInfo (err_message r)].
      repeat split; try (cbn; lia); try discriminate; auto.
      * intros (_ & r' & Hr & Hr'). congruence.
    + destruct (truthy (err_stack r)).
      * exists 1, [ConsoleError (JS.template (err_stack r))].
        repeat split; try (cbn; lia); try discriminate; eauto.
      * exists 1, [ConsoleError ("Startup error: " +:+ toString r)].
        repeat split; try (cbn; lia); try discriminate; eauto.
  - exists 0, []. repeat split; try (cbn; lia); try discriminate; auto.
    intros (_ & r' & Hr & _). discriminate.
Qed.

End QuitMore.

(* ===================================================================== *)
(** ** A whole launch                                                   *)
(* ===================================================================== *)

Module MainFacts.
Import Errors Formatter Coordinator Main CoordinatorFacts.

Lemma run_setupIPC_total (env : Environment) (w : World) (budget : nat) :
  (2 <= budget)%nat -> exists r tr, run (setupIPC env w budget) = Some (r, tr).
Proof.
  intros Hb. destruct budget as [|[|b]]; [lia | lia |].
  unfold run, setupIPC. crunch. all: settle.
Qed.

Section Paths.
Variable launch : Launch.

Lemma make_path_events (ps : list (option string)) :
  flat_map fst (map (make_path launch) ps) = map Mkdirp (wanted_of ps).
Proof.
  induction ps as [|p ps IH]; [reflexivity |].
  cbn [map flat_map]. unfold wanted_of in *. cbn [flat_map].
  rewrite map_app, IH. f_equal.
  destruct p as [path|]; [| reflexivity]. cbn [make_path].
  destruct (String.eqb path ""); reflexivity.
Qed.

Lemma make_path_results (ps : list (option string)) :
  forallb (fun r => match r with None => true | Some _ => false end)
    (map snd (map (make_path launch) ps))
  = forallb (fun path => match mkdirp_outcome launch path with
                         | None => true
                         | Some _ => false
                         end) (wanted_of ps).
Proof.
  induction ps as [|p ps IH]; [reflexivity |].
  cbn [map forallb]. unfold wanted_of in *. cbn [flat_map].
  rewrite forallb_app, IH. f_equal.
  destruct p as [path|]; [| reflexivity]. cbn [make_path].
  destruct (String.eqb path ""); [reflexivity |].
  cbn [snd forallb]. now rewrite andb_true_r.
Qed.

Lemma createPaths_spec (paths : StartupPaths) :
  fst (createPaths launch paths) = map Mkdirp (wanted_paths paths)
  /\ (forallb (fun path => match mkdirp_outcome launch path with
                           | None => true
                           | Some _ => false
                           end) (wanted_paths paths) = true ->
      snd (createPaths launch paths) = Resolved tt)
  /\ (forallb (fun path => match mkdirp_outcome launch path with
                           | None => true
                           | Some _ => false
                           end) (wanted_paths paths) = false ->
      exists err, snd (createPaths launch paths) = Rejected err).
Proof.
  unfold createPaths, wanted_paths. cbn [fst snd].
  rewrite make_path_events, make_path_results.
  repeat split.
  - now intros ->.
  - intros ->. eauto.
Qed.

End Paths.

Lemma made_paths_map_Mkdirp (ps : list string) :
  made_paths (map Mkdirp ps) = ps.
Proof.
  induction ps as [|p ps IH]; [reflexivity |]. cbn. now f_equal.
Qed.

Lemma made_paths_app (l1 l2 : list MainEvent) :
  made_paths (l1 ++ l2) = made_paths l1 ++ made_paths l2.
Proof. apply flat_map_app. Qed.

Lemma stderr_app (l1 l2 : list MainEvent) :
  launch_stderr (l1 ++ l2) = launch_stderr l1 ++ launch_stderr l2.
Proof. apply flat_map_app. Qed.

Lemma quiet_Mkdirp (ps : list string) : Forall quiet (map Mkdirp ps).
Proof. induction ps; constructor; [exact I | assumption]. Qed.

Lemma quiet_Ipc (tr : list Event) : Forall quiet (map Ipc tr).
Proof. induction tr; constructor; [exact I | assumption]. Qed.

Lemma quiet_prefix (l1 l2 : list MainEvent) :
  Forall quiet l1 ->
  launch_exit_code (l1 ++ l2) = launch_exit_code l2
  /\ ends_at_exit (l1 ++ l2) = ends_at_exit l2
  /\ launch_stderr (l1 ++ l2) = launch_stderr l2
  /\ existsb is_Startup (l1 ++ l2) = existsb is_Startup l2.
Proof.
  induction 1 as [|e l1 He _ IH]; [repeat split |].
  destruct IH as (Hexit & Hends & Herr & Hstart).
  destruct e; try contradiction; cbn; repeat split; assumption.
Qed.

Lemma no_Ipc_in_Mkdirp (ps : list string) :
  existsb is_Ipc (map Mkdirp ps) = false.
Proof. induction ps; [reflexivity | assumption]. Qed.

Lemma no_Mkdirp_in_Ipc (tr : list Event) :
  existsb is_Mkdirp (map Ipc tr) = false /\ made_paths (map Ipc tr) = [].
Proof. induction tr; [split; reflexivity | assumption]. Qed.

Lemma quitting_facts (err : JsError) :
  launch_exit_code (quitting err) = Some (if isExpected err then 0 else 1)
  /\ ends_at_exit (quitting err) = true
  /\ launch_stderr (quitting err) = Quit.stderr (Quit.quit (Some err))
  /\ existsb is_Startup (quitting err) = false
  /\ existsb is_Ipc (quitting err) = false
  /\ existsb is_Mkdirp (quitting err) = false
  /\ made_paths (quitting err) = [].
Proof.
  unfold quitting, Quit.quit. destruct (isExpected err); [repeat split |].
  destruct (truthy (err_stack err)); repeat split.
Qed.

Lemma forwarding_run (env : Environment) (w : World) (budget : nat)
    (e1 : JsError) :
  (1 <= budget)%nat ->
  serve_outcome w 0%nat = Some e1 -> code_is e1 "EADDRINUSE" = true ->
  connect_outcome w 0%nat = None ->
  tests_conflict env = false -> args_ps env = false ->
  (isWindows env = true ->
   exists pid, getMainProcessId_outcome w = Resolved pid) ->
  start_outcome w = None ->
  exists tr,
    run (setupIPC env w budget)
    = Some (Rejected (new_ExpectedError (capture_stack env) sentEnvMessage), tr)
    /\ In (Start (args env) (process_env env)) tr
    /\ count is_Start tr = 1%nat.
Proof.
  intros Hb Hs He1 Hc Htests Hps Hpid Hstart.
  destruct budget as [|b]; [lia |].
  unfold run, setupIPC, tests_conflict in *.
  crunch.
  all: repeat match goal with
         | H : ?x = ?x -> _ |- _ => specialize (H eq_refl)
         | H : ex _ |- _ => destruct H
         end; settle.
  all: cbn [In]; auto 20.
Qed.

Lemma first_bind_run (env : Environment) (w : World) (budget : nat) :
  (1 <= budget)%nat ->
  serve_outcome w 0%nat = None ->
  run (setupIPC env w budget)
  = Some (Resolved (mkServer (mainIPCHandle env)),
          [EnterSetup true; Serve (mainIPCHandle env)]
            ++ (if isMacintosh env then [DockShow] else [])
            ++ (if args_ps env then [ConsoleLog psWarning] else [])).
Proof.
  intros Hb Hs. destruct budget as [|b]; [lia |].
  unfold run, setupIPC. crunch. all: settle.
Qed.

Lemma all_made (launch : Launch) (paths : StartupPaths) :
  (forall path, In path (wanted_paths paths) ->
                mkdirp_outcome launch path = None) ->
  createPaths launch paths = (map Mkdirp (wanted_paths paths), Resolved tt).
Proof.
  intros Hok. destruct (createPaths_spec launch paths) as (Hfst & Hres & _).
  destruct (createPaths launch paths) as [made created]. cbn [fst snd] in *.
  rewrite Hfst, Hres; [reflexivity |].
  apply forallb_forall. intros path Hin. now rewrite (Hok path Hin).
Qed.

Ltac close_case :=
  repeat split; auto;
  try discriminate; try congruence;
  try (intros [? ?]; discriminate);
  try (intros; congruence).

(** X14. Every launch ends: once the process is ended ([app.exit] or
    [kill]) nothing more happens, the exit code is 0 or 1, and the process
    is left running exactly when the application was started and its
    start-up did not fail. A command line that cannot be parsed only prints
    the message of the error and exits with code 1. *)
Theorem launch_ends_once (launch : Launch) (budget : nat) :
  (2 <= budget)%nat ->
  exists evs,
    main launch budget = Some evs
    /\ ends_at_exit evs = true
    /\ (launch_exit_code evs = None \/ launch_exit_code evs = Some 0 \/ launch_exit_code evs = Some 1)
    /\ (launch_exit_code evs = None <->
        existsb is_Startup evs = true /\ startup_outcome launch = None)
    /\ (forall err,
          argv_outcome launch = inr err ->
          evs = [ConsoleErrorMessage (err_message err); AppExit 1]).
Proof.
  intros Hb. unfold main.
  destruct (argv_outcome launch) as [[env paths]|err].
  2:{ eexists. split; [reflexivity |]. close_case. }
  destruct (createPaths_spec launch paths) as (Hfst & _).
  destruct (createPaths launch paths) as [made created]. cbn [fst] in Hfst.
  subst made.
  pose proof (quiet_Mkdirp (wanted_paths paths)) as Hmade.
  destruct created as [[]|err].
  - destruct (run_setupIPC_total (patched launch env) (world launch) budget Hb)
      as (r & tr & Hrun).
    rewrite Hrun.
    assert (Hquiet : Forall quiet (map Mkdirp (wanted_paths paths) ++ map Ipc tr))
      by (apply Forall_app; split; [exact Hmade | apply quiet_Ipc]).
    destruct r as [server|err].
    + eexists. split; [reflexivity |]. rewrite app_assoc.
      destruct (quiet_prefix _ (Startup server (instanceEnv launch env)
                                  :: match startup_outcome launch with
                                     | Some err => quitting err
                                     | None => []
                                     end) Hquiet)
        as (-> & -> & _ & ->).
      destruct (startup_outcome launch) as [err|].
      * destruct (quitting_facts err) as (Hexit & Hends & _).
        cbn [launch_exit_code ends_at_exit is_Exit existsb is_Startup orb].
        rewrite Hexit, Hends. destruct (isExpected err); close_case.
      * cbn. close_case.
    + eexists. split; [reflexivity |]. rewrite app_assoc.
      destruct (quiet_prefix _ (quitting err) Hquiet) as (-> & -> & _ & ->).
      destruct (quitting_facts err) as (-> & -> & _ & -> & _).
      destruct (isExpected err); close_case.
  - eexists. split; [reflexivity |].
    destruct (quiet_prefix _ (quitting err) Hmade) as (-> & -> & _ & ->).
    destruct (quitting_facts err) as (-> & -> & _ & -> & _).
    destruct (isExpected err); close_case.
Qed.

(** X15. [main] first calls [mkdirp] for every path of the environment
    service that is not empty, in the order settings, extensions, cached
    data, logs, also after one of the calls has failed, and for nothing
    else; when one of them fails the launch goes straight to [quit], without
    binding or connecting. *)
Theorem directories_made_first (launch : Launch) (budget : nat)
    (env : Environment) (paths : StartupPaths) :
  (2 <= budget)%nat ->
  argv_outcome launch = inl (env, paths) ->
  exists rest,
    main launch budget = Some (map Mkdirp (wanted_paths paths) ++ rest)
    /\ existsb is_Mkdirp rest = false
    /\ made_paths (map Mkdirp (wanted_paths paths) ++ rest) = wanted_paths paths
    /\ (forall path,
          In path (wanted_paths paths) ->
          mkdirp_outcome launch path <> None ->
          exists err, rest = quitting err).
Proof.
  intros Hb Hargv. unfold main. rewrite Hargv.
  destruct (createPaths_spec launch paths) as (Hfst & Hok & Hbad).
  destruct (createPaths launch paths) as [made created]. cbn [fst snd] in *.
  subst made.
  assert (Hpaths : forall rest,
             existsb is_Mkdirp rest = false -> made_paths rest = [] ->
             made_paths (map Mkdirp (wanted_paths paths) ++ rest)
             = wanted_paths paths).
  { intros rest _ Hnone.
    now rewrite made_paths_app, made_paths_map_Mkdirp, Hnone, app_nil_r. }
  assert (Hfails : forall path,
             In path (wanted_paths paths) ->
             mkdirp_outcome launch path <> None ->
             exists err, created = Rejected err).
  { intros path Hin Hfail. apply Hbad.
    destruct (forallb _ (wanted_paths paths)) eqn:Hall; [| reflexivity].
    rewrite forallb_forall in Hall. specialize (Hall path Hin).
    destruct (mkdirp_outcome launch path); [discriminate | contradiction]. }
  destruct created as [[]|err].
  - destruct (run_setupIPC_total (patched launch env) (world launch) budget Hb)
      as (r & tr & Hrun).
    rewrite Hrun. destruct (no_Mkdirp_in_Ipc tr) as [HnoM HnoP].
    destruct r as [server|err].
    + eexists. split; [reflexivity |].
      assert (Hrest : existsb is_Mkdirp
                        (map Ipc tr ++ Startup server (instanceEnv launch env)
                           :: match startup_outcome launch with
                              | Some err => quitting err
                              | None => []
                              end) = false
                      /\ made_paths
                           (map Ipc tr ++ Startup server (instanceEnv launch env)
                              :: match startup_outcome launch with
                                 | Some err => quitting err
                                 | None => []
                                 end) = []).
      { rewrite existsb_app, made_paths_app, HnoM, HnoP.
        destruct (startup_outcome launch) as [err|]; [| split; reflexivity].
        destruct (quitting_facts err) as (_ & _ & _ & _ & _ & HqM & HqP).
        change (Startup server (instanceEnv launch env) :: quitting err)
          with ([Startup server (instanceEnv launch env)] ++ quitting err).
        rewrite existsb_app, made_paths_app, HqM, HqP. split; reflexivity. }
      destruct Hrest as [HrM HrP]. repeat split; auto.
      intros path Hin Hfail. destruct (Hfails path Hin Hfail). discriminate.
    + eexists. split; [reflexivity |].
      destruct (quitting_facts err) as (_ & _ & _ & _ & _ & HqM & HqP).
      assert (HrM : existsb is_Mkdirp (map Ipc tr ++ quitting err) = false)
        by now rewrite existsb_app, HnoM, HqM.
      assert (HrP : made_paths (map Ipc tr ++ quitting err) = [])
        by now rewrite made_paths_app, HnoP, HqP.
      repeat split; auto.
      intros path Hin Hfail. destruct (Hfails path Hin Hfail). discriminate.
  - eexists. split; [reflexivity |].
    destruct (quitting_facts err) as (_ & _ & _ & _ & _ & HqM & HqP).
    repeat split; auto. intros. eauto.
Qed.

(** X16. A launch that finds a live peer and has its start request
    acknowledged sends, once, its arguments and [process.env] as patched by
    [main], logs "Sent env to running instance. Terminating..." as
    information and ends with exit code 0, with nothing on standard error
    and without starting the application. *)
Theorem forwarded_launch_exits_cleanly (launch : Launch) (budget : nat)
    (env : Environment) (paths : StartupPaths) (e1 : JsError) :
  (1 <= budget)%nat ->
  argv_outcome launch = inl (env, paths) ->
  (forall path, In path (wanted_paths paths) ->
                mkdirp_outcome launch path = None) ->
  serve_outcome (world launch) 0%nat = Some e1 ->
  code_is e1 "EADDRINUSE" = true ->
  connect_outcome (world launch) 0%nat = None ->
  tests_conflict env = false -> args_ps env = false ->
  (isWindows env = true ->
   exists pid, getMainProcessId_outcome (world launch) = Resolved pid) ->
  start_outcome (world launch) = None ->
  exists tr evs,
    main launch budget = Some evs
    /\ evs = map Mkdirp (wanted_paths paths) ++ map Ipc tr
               ++ [Quitting (Quit.LogServiceInfo sentEnvMessage);
                   Quitting (Quit.Kill 0)]
    /\ In (Start (args env)
             (assign_env launch (process_env env) (instanceEnv launch env))) tr
    /\ count is_Start tr = 1%nat
    /\ launch_exit_code evs = Some 0
    /\ launch_stderr evs = []
    /\ existsb is_Startup evs = false.
Proof.
  intros Hb Hargv Hdirs Hs He1 Hc Htests Hps Hpid Hstart.
  destruct (forwarding_run (patched launch env) (world launch) budget e1)
    as (tr & Hrun & Hin & Hcount); try assumption.
  unfold main. rewrite Hargv, (all_made launch paths Hdirs), Hrun.
  exists tr,
    (map Mkdirp (wanted_paths paths) ++ map Ipc tr
       ++ [Quitting (Quit.LogServiceInfo sentEnvMessage);
           Quitting (Quit.Kill 0)]).
  split; [reflexivity |]. split; [reflexivity |].
  split; [exact Hin |]. split; [exact Hcount |].
  assert (Hquiet : Forall quiet (map Mkdirp (wanted_paths paths) ++ map Ipc tr))
    by (apply Forall_app; split; [apply quiet_Mkdirp | apply quiet_Ipc]).
  rewrite app_assoc.
  destruct (quiet_prefix _ [Quitting (Quit.LogServiceInfo sentEnvMessage);
                            Quitting (Quit.Kill 0)] Hquiet)
    as (-> & _ & -> & ->).
  repeat split.
Qed.

(** X17. A launch whose first bind succeeds starts the application with
    the server of its endpoint and an instance environment that names its
    own pid and that endpoint and passes on [VSCODE_NLS_CONFIG] and
    [VSCODE_LOGS] as found; the process keeps running if the start-up
    succeeds, and ends through [quit] if it fails. *)
Theorem primary_launch_starts_application (launch : Launch) (budget : nat)
    (env : Environment) (paths : StartupPaths) :
  (1 <= budget)%nat ->
  argv_outcome launch = inl (env, paths) ->
  (forall path, In path (wanted_paths paths) ->
                mkdirp_outcome launch path = None) ->
  serve_outcome (world launch) 0%nat = None ->
  let tr := [EnterSetup true; Serve (mainIPCHandle env)]
              ++ (if isMacintosh env then [DockShow] else [])
              ++ (if args_ps env then [ConsoleLog psWarning] else []) in
  exists evs,
    main launch budget = Some evs
    /\ evs = map Mkdirp (wanted_paths paths) ++ map Ipc tr
               ++ Startup (mkServer (mainIPCHandle env))
                    [("VSCODE_PID", Some (JS.decimal (process_pid launch)));
                     ("VSCODE_IPC_HOOK", Some (mainIPCHandle env));
                     ("VSCODE_NLS_CONFIG",
                      env_lookup launch (process_env env) "VSCODE_NLS_CONFIG");
                     ("VSCODE_LOGS",
                      env_lookup launch (process_env env) "VSCODE_LOGS")]
               :: match startup_outcome launch with
                  | Some err => quitting err
                  | None => []
                  end
    /\ (startup_outcome launch = None -> launch_exit_code evs = None /\ launch_stderr evs = [])
    /\ (forall err, startup_outcome launch = Some err ->
                    launch_exit_code evs = Some (if isExpected err then 0 else 1)).
Proof.
  intros Hb Hargv Hdirs Hs tr.
  pose proof (first_bind_run (patched launch env) (world launch) budget Hb Hs)
    as Hrun.
  unfold main. rewrite Hargv, (all_made launch paths Hdirs), Hrun.
  cbn [patched mainIPCHandle isMacintosh args_ps]. fold tr.
  exists (map Mkdirp (wanted_paths paths) ++ map Ipc tr
            ++ Startup (mkServer (mainIPCHandle env)) (instanceEnv launch env)
            :: match startup_outcome launch with
               | Some err => quitting err
               | None => []
               end).
  split; [reflexivity |]. split; [reflexivity |].
  assert (Hquiet : Forall quiet (map Mkdirp (wanted_paths paths) ++ map Ipc tr))
    by (apply Forall_app; split; [apply quiet_Mkdirp | apply quiet_Ipc]).
  rewrite app_assoc.
  split.
  - intros Hok. rewrite Hok.
    destruct (quiet_prefix _ [Startup (mkServer (mainIPCHandle env))
                                (instanceEnv launch env)] Hquiet)
      as (-> & _ & -> & _).
    split; reflexivity.
  - intros err Herr. rewrite Herr.
    destruct (quiet_prefix _ (Startup (mkServer (mainIPCHandle env))
                                (instanceEnv launch env) :: quitting err) Hquiet)
      as (-> & _).
    cbn [launch_exit_code]. now destruct (quitting_facts err) as (-> & _).
Qed.

(** *** The theorems at sample launches *)

Lemma launch_ends_once_witness :
  exists evs,
    main (MoreSamples.launch_in Samples.live_peer (fun _ => None)) 2 = Some evs
    /\ ends_at_exit evs = true
    /\ launch_exit_code evs = Some 0.
Proof.
  destruct (launch_ends_once
              (MoreSamples.launch_in Samples.live_peer (fun _ => None)) 2)
    as (evs & Hmain & Hends & _); [lia |].
  exists evs. repeat split; try assumption.
  vm_compute in Hmain. injection Hmain as <-. reflexivity.
Defined.

Lemma directories_made_first_witness :
  exists rest err,
    main (MoreSamples.launch_in Samples.live_peer MoreSamples.no_logs_dir) 2
    = Some ([Mkdirp "/home/me/.config/Code/User";
             Mkdirp "/home/me/.vscode/extensions";
             Mkdirp "/home/me/.config/Code/logs"] ++ rest)
    /\ rest = quitting err.
Proof.
  destruct (directories_made_first
              (MoreSamples.launch_in Samples.live_peer MoreSamples.no_logs_dir)
              2 Samples.linux MoreSamples.usual_paths)
    as (rest & Hmain & _ & _ & Hfail); [lia | reflexivity |].
  destruct (Hfail "/home/me/.config/Code/logs") as (err & Herr).
  - vm_compute. auto.
  - discriminate.
  - exists rest, err. split; [exact Hmain | exact Herr].
Defined.

Lemma forwarded_launch_exits_cleanly_witness :
  exists tr evs,
    main (MoreSamples.launch_in Samples.live_peer (fun _ => None)) 1 = Some evs
    /\ In (Start ["--open"; "/tmp/x"]
             [("A", "1"); ("VSCODE_PID", "4242");
              ("VSCODE_IPC_HOOK", "/run/user/1000/code.sock");
              ("VSCODE_NLS_CONFIG", "undefined");
              ("VSCODE_LOGS", "undefined")]) tr
    /\ launch_exit_code evs = Some 0
    /\ launch_stderr evs = [].
Proof.
  destruct (forwarded_launch_exits_cleanly
              (MoreSamples.launch_in Samples.live_peer (fun _ => None)) 1
              Samples.linux MoreSamples.usual_paths Samples.address_in_use)
    as (tr & evs & Hmain & _ & Hin & _ & Hexit & Herr & _);
    [lia | reflexivity | reflexivity | reflexivity | reflexivity
     | reflexivity | reflexivity | reflexivity | discriminate
     | reflexivity |].
  exists tr, evs. repeat split; assumption.
Defined.

Lemma primary_launch_starts_application_witness :
  exists evs,
    main (MoreSamples.launch_in MoreSamples.fresh (fun _ => None)) 1 = Some evs
    /\ launch_exit_code evs = None
    /\ existsb is_Startup evs = true.
Proof.
  destruct (primary_launch_starts_application
              (MoreSamples.launch_in MoreSamples.fresh (fun _ => None)) 1
              Samples.linux MoreSamples.usual_paths)
    as (evs & Hmain & Hevs & Hok & _);
    [lia | reflexivity | reflexivity | reflexivity |].
  destruct (Hok eq_refl) as [Hexit _].
  exists evs. repeat split; try assumption.
  rewrite Hevs. reflexivity.
Defined.

End MainFacts.
